(** * Agent tools: the Python analysis tool and the Open-Meteo weather tool

    A shallow embedding of the two tool definitions of the repository
    ([analyzeTool] and [weatherTool]) together with the properties their
    specification states about them.

    Both tools are thin wrappers around an external capability: the first
    around Node's [child_process.spawnSync], the second around [fetch].
    The embedding keeps the code of [execute] as it is written and makes
    the outside world an explicit argument: a host that decides the fate of
    the spawned interpreter, a network that answers a URL.  Exceptions and
    observable effects (the spawn, the HTTP request, [console.error]) are
    threaded through a small trace-and-exception monad. *)

From Stdlib Require Import ZArith QArith String Ascii List.
From stdpp Require Import base option list strings gmap pretty.

Set Warnings "-register-all".

Local Open Scope string_scope.
Local Open Scope list_scope.
Local Open Scope Z_scope.

(** ** JavaScript values *)

(** A JavaScript number.  Every finite double is a rational, so [Finite]
    covers them all; the three special values are kept apart because the
    comparisons and the schema checks treat them differently. *)
Inductive number : Type :=
  | NaN
  | Infinity (negative : bool)
  | Finite (q : Q).

Definition num (z : Z) : number := Finite (inject_Z z).

(** [a < b] of JavaScript: false as soon as one side is [NaN]. *)
Definition number_lt (a b : number) : bool :=
  match a, b with
  | NaN, _ | _, NaN => false
  | Infinity true, Infinity true => false
  | Infinity true, _ => true
  | _, Infinity true => false
  | Infinity false, _ => false
  | _, Infinity false => true
  | Finite p, Finite q => negb (Qle_bool q p)
  end.

Definition number_gt (a b : number) : bool := number_lt b a.

(** [a <= b] of JavaScript. *)
Definition number_le (a b : number) : bool :=
  match a, b with
  | NaN, _ | _, NaN => false
  | Infinity true, _ => true
  | _, Infinity true => false
  | _, Infinity false => true
  | Infinity false, _ => false
  | Finite p, Finite q => Qle_bool p q
  end.

(** [Number.isInteger]. *)
Definition Number_isInteger (n : number) : bool :=
  match n with
  | Finite q => (Qnum q mod Zpos (Qden q) =? 0)%Z
  | _ => false
  end.

Definition Number_isNaN (n : number) : bool :=
  match n with NaN => true | _ => false end.

(** The values a tool receives as raw arguments and the values
    [response.json()] produces.  Objects are finite maps from property
    names to values. *)
Inductive jsval : Type :=
  | JUndefined
  | JNull
  | JBool (b : bool)
  | JNum (n : number)
  | JStr (s : string)
  | JArr (items : list jsval)
  | JObj (props : gmap string jsval).

(** An [Error] object: its message and, for system errors, its [code]. *)
Module Error.
Record t : Type := {
  message : string;
  code : option string;
}.
End Error.

(** What a [throw] (or a rejected promise) carries: an instance of [Error]
    or any other value. *)
Inductive thrown : Type :=
  | ThrowError (e : Error.t)
  | ThrowValue (v : jsval).

Definition new_Error (msg : string) : Error.t :=
  {| Error.message := msg; Error.code := None |}.

(** JavaScript's [a || b] on strings (the empty string is falsy) and
    [a ?? b] on a value that may be [null]. *)
Definition or_else (a b : string) : string :=
  match a with
  | EmptyString => b
  | _ => a
  end.

Definition nullish {A : Type} (a : option A) (b : A) : A :=
  match a with
  | Some x => x
  | None => b
  end.

Infix "||'" := or_else (at level 50, left associativity).
Infix "??" := nullish (at level 50, left associativity).

(** ** The interfaces of the runtime *)

(** [child_process.spawnSync]: its options (those the tool passes) and
    the object it returns.  [stdout] and [stderr] are typed as strings, as
    in Node's declarations for a call with an [encoding]. *)
Module ChildProcess.

Record SpawnSyncOptions : Type := {
  input : string;
  encoding : string;
  timeout : Z;
  maxBuffer : Z;
}.

Record SpawnSyncReturns : Type := {
  error : option Error.t;
  status : option Z;
  signal : option string;
  stdout : string;
  stderr : string;
}.

(** The two limits the tool sets, and the error code Node reports when
    one is hit. *)
Inductive limit : Type :=
  | TimeLimit
  | BufferLimit.

Definition limit_errno (l : limit) : string :=
  match l with
  | TimeLimit => "ETIMEDOUT"
  | BufferLimit => "ENOBUFS"
  end.

(** What becomes of the child process.  The host decides; the tool only
    sees the [SpawnSyncReturns] that Node builds from it.  An error and an
    exit status are not exclusive: [EndsAtLimit] is a child that hit a
    limit and still ended by itself, so that Node reports both.  [Exits]
    and [KilledBy] are the fates without a spawn error. *)
Inductive fate : Type :=
  | SpawnThrows (e : thrown)
      (* spawnSync itself raises, e.g. on an argument it refuses *)
  | LaunchFails (errno : string)
      (* the executable could not be started: ENOENT, EACCES, ... *)
  | TimesOut (out err : string)
      (* [timeout] elapsed; the child is killed, output so far is kept *)
  | OverflowsBuffer (out err : string)
      (* more than [maxBuffer] bytes were read; the child is killed *)
  | Exits (exit_status : Z) (out err : string)
  | KilledBy (sig : string) (out err : string)
  | EndsAtLimit (l : limit) (exit_status : Z) (out err : string)
      (* a limit was hit but the child exited by itself: the error of the
         limit comes with the child's own exit status and no signal *).

Definition host : Type := string -> list string -> SpawnSyncOptions -> fate.

(** The error object of a failed [spawnSync]: Node's errno exception,
    whose message is the system call followed by the error code. *)
Definition errnoException (file errno : string) : Error.t :=
  {| Error.message := "spawnSync " +:+ file +:+ " " +:+ errno;
     Error.code := Some errno |}.

End ChildProcess.

(** [fetch]: a rejected promise, or a response with a status line and a
    body that [json()] parses or rejects. *)
Module Http.

Record Response : Type := {
  status : Z;
  statusText : string;
  json : thrown + jsval;
}.

(** [response.ok]: the status is in the range 200-299. *)
Definition ok (r : Response) : bool :=
  (200 <=? status r)%Z && (status r <=? 299)%Z.

Definition network : Type := string -> thrown + Response.

End Http.

(** ** Effects *)

(** What a tool call does that the outside can observe. *)
Inductive event : Type :=
  | SpawnSync (file : string) (args : list string)
              (options : ChildProcess.SpawnSyncOptions)
  | Fetch (url : string)
  | ConsoleError (label : string) (e : thrown).

(** A computation emits events and ends by returning or by throwing. *)
Definition M (A : Type) : Type := list event * (thrown + A).

Definition ret {A} (a : A) : M A := ([], inr a).
Definition throw {A} (e : thrown) : M A := ([], inl e).
Definition emit (ev : event) : M unit := ([ev], inr tt).

Definition bind {A B} (m : M A) (k : A -> M B) : M B :=
  match m with
  | (t, inl e) => (t, inl e)
  | (t, inr a) => let '(t', r) := k a in (t ++ t', r)
  end.

(** [try { body } catch (error) { handler }] *)
Definition try_catch {A} (body : M A) (handler : thrown -> M A) : M A :=
  match body with
  | (t, inl e) => let '(t', r) := handler e in (t ++ t', r)
  | (t, inr a) => (t, inr a)
  end.

#[global] Instance M_ret : MRet M := @ret.
#[global] Instance M_bind : MBind M := fun A B k m => bind m k.

Definition trace {A} (m : M A) : list event := fst m.
Definition outcome {A} (m : M A) : thrown + A := snd m.

Definition console_error (label : string) (e : thrown) : M unit :=
  emit (ConsoleError label e).

(** The run-time calls, as computations. *)
Definition spawnSync (h : ChildProcess.host) (file : string)
    (args : list string) (options : ChildProcess.SpawnSyncOptions)
  : M ChildProcess.SpawnSyncReturns :=
  emit (SpawnSync file args options);;
  match h file args options with
  | ChildProcess.SpawnThrows e => throw e
  | ChildProcess.LaunchFails errno =>
      mret {| ChildProcess.error := Some (ChildProcess.errnoException file errno);
              ChildProcess.status := None; ChildProcess.signal := None;
              ChildProcess.stdout := ""; ChildProcess.stderr := "" |}
  | ChildProcess.TimesOut out err =>
      mret {| ChildProcess.error := Some (ChildProcess.errnoException file "ETIMEDOUT");
              ChildProcess.status := None; ChildProcess.signal := Some "SIGTERM";
              ChildProcess.stdout := out; ChildProcess.stderr := err |}
  | ChildProcess.OverflowsBuffer out err =>
      mret {| ChildProcess.error := Some (ChildProcess.errnoException file "ENOBUFS");
              ChildProcess.status := None; ChildProcess.signal := Some "SIGTERM";
              ChildProcess.stdout := out; ChildProcess.stderr := err |}
  | ChildProcess.Exits st out err =>
      mret {| ChildProcess.error := None;
              ChildProcess.status := Some st; ChildProcess.signal := None;
              ChildProcess.stdout := out; ChildProcess.stderr := err |}
  | ChildProcess.KilledBy sig out err =>
      mret {| ChildProcess.error := None;
              ChildProcess.status := None; ChildProcess.signal := Some sig;
              ChildProcess.stdout := out; ChildProcess.stderr := err |}
  | ChildProcess.EndsAtLimit l st out err =>
      mret {| ChildProcess.error :=
                Some (ChildProcess.errnoException file (ChildProcess.limit_errno l));
              ChildProcess.status := Some st; ChildProcess.signal := None;
              ChildProcess.stdout := out; ChildProcess.stderr := err |}
  end.

Definition fetch (net : Http.network) (url : string) : M Http.Response :=
  emit (Fetch url);;
  match net url with
  | inl e => throw e
  | inr response => mret response
  end.

Definition response_json (response : Http.Response) : M jsval :=
  match Http.json response with
  | inl e => throw e
  | inr data => mret data
  end.

(** ** The analysis tool *)

Module Analyze.

(** The object [execute] resolves to; a field that the object literal
    does not list is [None]. *)
Record Result : Type := {
  stdout : option string;
  stderr : option string;
  exitCode : option Z;
  error : option string;
}.

Definition only_error (msg : string) : Result :=
  {| stdout := None; stderr := None; exitCode := None; error := Some msg |}.

Definition execute (h : ChildProcess.host) (code : string) : M Result :=
  try_catch
    (result ← spawnSync h "python"
                ["-c"; "import sys; exec(sys.stdin.read())"]
                {| ChildProcess.input := code;
                   ChildProcess.encoding := "utf-8";
                   ChildProcess.timeout := 10000;
                   ChildProcess.maxBuffer := 10 * 1024 * 1024 |};
     match ChildProcess.error result with
     | Some e =>
         if decide (Error.code e = Some "ETIMEDOUT")
         then mret (only_error "Execution timed out (limit: 10 seconds)")
         else mret (only_error ("Execution failed: " +:+ Error.message e))
     | None =>
         if decide (ChildProcess.status result ≠ Some 0)
         then mret {| stdout := Some (ChildProcess.stdout result);
                      stderr := Some (ChildProcess.stderr result
                                      ||' "Unknown error occurred");
                      exitCode := Some (ChildProcess.status result ?? -1);
                      error := Some "Python script exited with error" |}
         else mret {| stdout := Some (ChildProcess.stdout result);
                      stderr := Some (ChildProcess.stderr result);
                      exitCode := Some (ChildProcess.status result ?? 0);
                      error := None |}
     end)
    (fun error =>
       console_error "Analysis tool error:" error;;
       mret (only_error
               match error with
               | ThrowError e => Error.message e
               | ThrowValue _ => "Analysis failed due to an unknown error"
               end)).

End Analyze.

(** ** Schemas *)

(** The part of the [zod] library that the weather tool's [parameters]
    use.  A schema parses a raw value into a typed one or rejects it. *)
Module Zod.

Definition schema (A : Type) : Type := jsval -> option A.

#[local] Abbreviation Number := number (only parsing).

(** [z.number()]: a value of type number that is not [NaN]. *)
Definition number : schema Number :=
  fun v =>
    match v with
    | JNum n => if Number_isNaN n then None else Some n
    | _ => None
    end.

Definition check {A} (p : A -> bool) (s : schema A) : schema A :=
  fun v => x ← s v; if p x then Some x else None.

(** [.min(b)] rejects a number below [b], [.max(b)] one above it, and
    [.int()] one that [Number.isInteger] refuses. *)
Definition min (b : Z) : schema Number -> schema Number :=
  check (fun x => negb (number_lt x (num b))).

Definition max (b : Z) : schema Number -> schema Number :=
  check (fun x => negb (number_gt x (num b))).

Definition int : schema Number -> schema Number :=
  check Number_isInteger.

(** [.default(d)]: an undefined input is replaced by [d] before the inner
    schema parses it.  [.optional()]: an undefined input is accepted as it
    is. *)
Definition default {A} (d : jsval) (s : schema A) : schema A :=
  fun v =>
    match v with
    | JUndefined => s d
    | _ => s v
    end.

Definition optional {A} (s : schema A) : schema (option A) :=
  fun v =>
    match v with
    | JUndefined => Some None
    | _ => x ← s v; Some (Some x)
    end.

(** [z.enum([...])]: a string among the listed ones. *)
Definition enum (values : list string) : schema string :=
  fun v =>
    match v with
    | JStr s => if decide (s ∈ values) then Some s else None
    | _ => None
    end.

(** [z.array(item)]: an array whose elements all parse. *)
Definition array {A} (item : schema A) : schema (list A) :=
  fun v =>
    match v with
    | JArr items => mapM item items
    | _ => None
    end.

(** The value [z.object] hands to the schema of a key: the property, or
    undefined when the object has none of that name. *)
Definition field (props : gmap string jsval) (key : string) : jsval :=
  props !! key ?? JUndefined.

(** [z.string()]: a value of type string, of any length. *)
Definition string : schema String.string :=
  fun v =>
    match v with
    | JStr s => Some s
    | _ => None
    end.

End Zod.

Notation "x |> f" := (f x) (at level 45, left associativity, only parsing).

(** ** The weather tool *)

Module Weather.

Definition DEFAULT_DAILY_VARS : list string :=
  [ "temperature_2m_max";
    "temperature_2m_min";
    "precipitation_sum";
    "windspeed_10m_max";
    "weathercode" ].

(** The arguments of [execute].  [forecast_days] and [daily] may be
    undefined there: the function has its own default for the first and
    tests the second. *)
Module Args.
Record t : Type := {
  latitude : number;
  longitude : number;
  forecast_days : option number;
  daily : option (list string);
}.
End Args.

(** *** [parameters] *)

Definition latitude_schema : Zod.schema number :=
  Zod.number |> Zod.min (-90) |> Zod.max 90.

Definition longitude_schema : Zod.schema number :=
  Zod.number |> Zod.min (-180) |> Zod.max 180.

Definition forecast_days_schema : Zod.schema number :=
  Zod.number |> Zod.int |> Zod.min 1 |> Zod.max 7 |> Zod.default (JNum (num 3)).

Definition daily_schema : Zod.schema (option (list string)) :=
  Zod.array
    (Zod.enum
       [ "temperature_2m_max";
         "temperature_2m_min";
         "precipitation_sum";
         "windspeed_10m_max";
         "weathercode" ])
  |> Zod.optional.

(** [z.object({ latitude, longitude, forecast_days, daily })] *)
Definition parameters : Zod.schema Args.t :=
  fun raw =>
    match raw with
    | JObj props =>
        latitude ← latitude_schema (Zod.field props "latitude");
        longitude ← longitude_schema (Zod.field props "longitude");
        forecast_days ← forecast_days_schema (Zod.field props "forecast_days");
        daily ← daily_schema (Zod.field props "daily");
        Some {| Args.latitude := latitude;
                Args.longitude := longitude;
                Args.forecast_days := Some forecast_days;
                Args.daily := daily |}
    | _ => None
    end.

(** *** [URLSearchParams] *)

(** The bytes that the [application/x-www-form-urlencoded] serializer
    leaves as they are: ASCII letters and digits and [*-._]. *)
Definition urlencoded_plain (c : ascii) : bool :=
  let n := N_of_ascii c in
  ((48 <=? n) && (n <=? 57) || (65 <=? n) && (n <=? 90)
   || (97 <=? n) && (n <=? 122)
   || (n =? 42) || (n =? 45) || (n =? 46) || (n =? 95))%N.

Definition hex_digit (n : N) : ascii :=
  ascii_of_N (if (n <? 10)%N then 48 + n else 55 + n)%N.

Definition percent_encode (c : ascii) : string :=
  let n := N_of_ascii c in
  String "%" (String (hex_digit (n / 16)) (String (hex_digit (n mod 16)) "")).

Fixpoint urlencode (s : string) : string :=
  match s with
  | EmptyString => EmptyString
  | String c rest =>
      (if urlencoded_plain c then String c ""
       else if Ascii.eqb c " " then "+"
       else percent_encode c) +:+ urlencode rest
  end.

(** [new URLSearchParams({...}).toString()] *)
Definition URLSearchParams_toString (params : list (string * string)) : string :=
  String.concat "&"
    (map (fun '(name, value) => urlencode name +:+ "=" +:+ urlencode value)
         params).

(** *** Reading the response *)

(** [data.key] for a key that no prototype defines: an own property of an
    object, undefined on any other value, and a [TypeError] on [null] and
    [undefined]. *)
Definition get (data : jsval) (key : string) : M jsval :=
  match data with
  | JObj props => mret (props !! key ?? JUndefined)
  | JNull =>
      throw (ThrowError (new_Error
        ("Cannot read properties of null (reading '" +:+ key +:+ "')")))
  | JUndefined =>
      throw (ThrowError (new_Error
        ("Cannot read properties of undefined (reading '" +:+ key +:+ "')")))
  | _ => mret JUndefined
  end.

(** [v ?? null] on a value. *)
Definition or_null (v : jsval) : jsval :=
  match v with
  | JUndefined | JNull => JNull
  | _ => v
  end.

(** *** The result *)

Module Query.
Record t : Type := {
  latitude : number;
  longitude : number;
  forecast_days : number;
  daily : list string;
}.
End Query.

(** [execute] resolves to one of two object shapes. *)
Inductive Result : Type :=
  | Forecast (source : string) (query : Query.t) (units daily : jsval)
  | Failure (error : string).

Section Execute.

(** [Number.prototype.toString] is the engine's; the tool only passes its
    output on. *)
Variable toString : number -> string.
Variable net : Http.network.

(** [daily && daily.length > 0 ? daily : DEFAULT_DAILY_VARS] *)
Definition effective_daily (daily : option (list string)) : list string :=
  match daily with
  | Some ((_ :: _) as vars) => vars
  | _ => DEFAULT_DAILY_VARS
  end.

Definition request_url (latitude longitude forecast_days : number)
    (dailyVars : list string) : string :=
  "https://api.open-meteo.com/v1/forecast?" +:+
  URLSearchParams_toString
    [ ("latitude", toString latitude);
      ("longitude", toString longitude);
      ("forecast_days", toString forecast_days);
      ("timezone", "auto");
      ("daily", String.concat "," dailyVars) ].

Definition execute (args : Args.t) : M Result :=
  let latitude := Args.latitude args in
  let longitude := Args.longitude args in
  let forecast_days := Args.forecast_days args ?? num 3 in
  let daily := Args.daily args in
  try_catch
    (let dailyVars := effective_daily daily in
     let url := request_url latitude longitude forecast_days dailyVars in
     response ← fetch net url;
     (if negb (Http.ok response)
      then throw (ThrowError (new_Error
             ("Weather API error: " +:+ pretty (Http.status response)
              +:+ " " +:+ Http.statusText response)))
      else mret tt);;
     data ← response_json response;
     units ← get data "daily_units";
     daily_values ← get data "daily";
     mret (Forecast "open-meteo"
             {| Query.latitude := latitude;
                Query.longitude := longitude;
                Query.forecast_days := forecast_days;
                Query.daily := dailyVars |}
             (or_null units)
             (or_null daily_values)))
    (fun error =>
       console_error "Weather tool error:" error;;
       mret (Failure
               match error with
               | ThrowError e => Error.message e
               | ThrowValue _ => "Checking weather failed due to an unknown error."
               end)).

(** What the orchestrator gets from a call with raw arguments. *)
Inductive CallResult : Type :=
  | Rejected
  | Returned (result : Result).

(** Modelled from the spec: the orchestrator that registers the tool (the
    [tool] wrapper of the agent SDK) is not part of the sources.  It
    validates the raw arguments against [parameters] and invokes [execute]
    with the validated arguments only; a request that fails validation is
    rejected before execution. *)
Definition call (raw : jsval) : M CallResult :=
  match parameters raw with
  | None => mret Rejected
  | Some args => result ← execute args; mret (Returned result)
  end.

End Execute.

End Weather.

(** ** The analysis tool: its parameters *)

Module AnalyzeCall.

(** [z.object({ code: z.string() })]; [execute] takes the [code] of the
    parsed object. *)
Definition parameters : Zod.schema string :=
  fun raw =>
    match raw with
    | JObj props => Zod.string (Zod.field props "code")
    | _ => None
    end.

End AnalyzeCall.

(** ** Vocabulary of the specification *)

(** A field of a result object is populated when the object has it. *)
Definition populated {A} (field : option A) : Prop := is_Some field.
Definition absent {A} (field : option A) : Prop := field = None.

(** [needle] occurs in [text]. *)
Definition contains (needle text : string) : Prop :=
  exists before after, text = before +:+ needle +:+ after.

(** The fate of the interpreter that [Analyze.execute] spawns for a
    script under a host. *)
Definition fate_of (h : ChildProcess.host) (script : string) : ChildProcess.fate :=
  h "python" ["-c"; "import sys; exec(sys.stdin.read())"]
    {| ChildProcess.input := script;
       ChildProcess.encoding := "utf-8";
       ChildProcess.timeout := 10000;
       ChildProcess.maxBuffer := 10 * 1024 * 1024 |}.

(** The interpreter process was never started: the spawn raised or
    reported a launch error. *)
Definition could_not_start (f : ChildProcess.fate) : bool :=
  match f with
  | ChildProcess.SpawnThrows _ | ChildProcess.LaunchFails _ => true
  | _ => false
  end.

Definition timed_out (f : ChildProcess.fate) : bool :=
  match f with
  | ChildProcess.TimesOut _ _
  | ChildProcess.EndsAtLimit ChildProcess.TimeLimit _ _ _ => true
  | _ => false
  end.

Definition buffer_exceeded (f : ChildProcess.fate) : bool :=
  match f with
  | ChildProcess.OverflowsBuffer _ _
  | ChildProcess.EndsAtLimit ChildProcess.BufferLimit _ _ _ => true
  | _ => false
  end.

(** The process ran to its end, it exited or a signal killed it, and the
    spawn reported no error. *)
Definition ran_to_end (f : ChildProcess.fate) : bool :=
  match f with
  | ChildProcess.Exits _ _ _ | ChildProcess.KilledBy _ _ _ => true
  | _ => false
  end.

(** The status the process exited with, when it exited by itself. *)
Definition exit_status (f : ChildProcess.fate) : option Z :=
  match f with
  | ChildProcess.Exits st _ _ | ChildProcess.EndsAtLimit _ st _ _ => Some st
  | _ => None
  end.

(** A result that carries an error description and nothing else. *)
Definition error_only (r : Analyze.Result) : Prop :=
  absent (Analyze.stdout r) /\ absent (Analyze.stderr r) /\
  absent (Analyze.exitCode r) /\ populated (Analyze.error r).

(** A host that gives every spawn the same fate. *)
Definition always (f : ChildProcess.fate) : ChildProcess.host :=
  fun _ _ _ => f.

(** ** The analysis tool: what each fate of the interpreter yields *)

(** A closed form of the result of [Analyze.execute], proved equal to it
    in [execute_respond]: the result is a function of the fate alone, the
    script matters only through what the host makes of it. *)
Definition respond (f : ChildProcess.fate) : Analyze.Result :=
  match f with
  | ChildProcess.SpawnThrows (ThrowError e) =>
      Analyze.only_error (Error.message e)
  | ChildProcess.SpawnThrows (ThrowValue _) =>
      Analyze.only_error "Analysis failed due to an unknown error"
  | ChildProcess.LaunchFails errno =>
      if decide (errno = "ETIMEDOUT")
      then Analyze.only_error "Execution timed out (limit: 10 seconds)"
      else Analyze.only_error ("Execution failed: spawnSync python " +:+ errno)
  | ChildProcess.TimesOut _ _ =>
      Analyze.only_error "Execution timed out (limit: 10 seconds)"
  | ChildProcess.OverflowsBuffer _ _ =>
      Analyze.only_error "Execution failed: spawnSync python ENOBUFS"
  | ChildProcess.Exits st out err =>
      if decide (st = 0)
      then {| Analyze.stdout := Some out; Analyze.stderr := Some err;
              Analyze.exitCode := Some 0; Analyze.error := None |}
      else {| Analyze.stdout := Some out;
              Analyze.stderr := Some (err ||' "Unknown error occurred");
              Analyze.exitCode := Some st;
              Analyze.error := Some "Python script exited with error" |}
  | ChildProcess.KilledBy _ out err =>
      {| Analyze.stdout := Some out;
         Analyze.stderr := Some (err ||' "Unknown error occurred");
         Analyze.exitCode := Some (-1);
         Analyze.error := Some "Python script exited with error" |}
  | ChildProcess.EndsAtLimit ChildProcess.TimeLimit _ _ _ =>
      Analyze.only_error "Execution timed out (limit: 10 seconds)"
  | ChildProcess.EndsAtLimit ChildProcess.BufferLimit _ _ _ =>
      Analyze.only_error "Execution failed: spawnSync python ENOBUFS"
  end.

(** ** The weather tool: vocabulary *)

(** The URLs of the HTTP requests in a trace. *)
Definition fetches (t : list event) : list string :=
  omap (fun ev => match ev with Fetch url => Some url | _ => None end) t.

(** [lo <= x <= hi] *)
Definition within (lo hi : Z) (x : number) : bool :=
  number_le (num lo) x && number_le x (num hi).

(** A raw argument that is a number outside [lo, hi]. *)
Definition out_of_range (lo hi : Z) (v : jsval) : Prop :=
  exists x, v = JNum x /\ within lo hi x = false.

(** A raw argument that is a number but not an integer. *)
Definition fractional (v : jsval) : Prop :=
  exists x, v = JNum x /\ Number_isInteger x = false.

(** An own property of a parsed body. *)
Definition property (data : jsval) (key : string) : option jsval :=
  match data with
  | JObj props => props !! key
  | _ => None
  end.

(** The value of a property of the body, or [null] when the body has no
    such property (or has it as [undefined] or [null]). *)
Definition taken_from (data : jsval) (key : string) : jsval :=
  match property data key with
  | None | Some JUndefined | Some JNull => JNull
  | Some v => v
  end.

(** The text the [catch] clause of the weather tool reports. *)
Definition describe (e : thrown) : string :=
  match e with
  | ThrowError e => Error.message e
  | ThrowValue _ => "Checking weather failed due to an unknown error."
  end.

(** A closed form of the result of [Weather.execute], proved equal to it
    in [execute_reshape]: the result as a function of the echoed query and
    of what the network answered. *)
Definition reshape (query : Weather.Query.t) (answer : thrown + Http.Response)
  : Weather.Result :=
  match answer with
  | inl e => Weather.Failure (describe e)
  | inr response =>
      if Http.ok response then
        match Http.json response with
        | inl e => Weather.Failure (describe e)
        | inr JNull =>
            Weather.Failure "Cannot read properties of null (reading 'daily_units')"
        | inr JUndefined =>
            Weather.Failure "Cannot read properties of undefined (reading 'daily_units')"
        | inr data =>
            Weather.Forecast "open-meteo" query
              (taken_from data "daily_units") (taken_from data "daily")
        end
      else
        Weather.Failure ("Weather API error: " +:+ pretty (Http.status response)
                         +:+ " " +:+ Http.statusText response)
  end.

(** The five variable names of the specification: the names a request
    may ask for, and the default set. *)
Definition known_variables : list string :=
  [ "temperature_2m_max"; "temperature_2m_min"; "precipitation_sum";
    "windspeed_10m_max"; "weathercode" ].

(** The variables a request is served with: its own list, or the five
    names when it has none or an empty one. *)
Definition effective_variables (daily : option (list string)) : list string :=
  match daily with
  | None | Some [] => known_variables
  | Some vars => vars
  end.

(** The day count a request is served with. *)
Definition effective_days (forecast_days : option number) : number :=
  match forecast_days with
  | None => num 3
  | Some days => days
  end.

(** The query the tool echoes for given arguments. *)
Definition echoed (args : Weather.Args.t) : Weather.Query.t :=
  {| Weather.Query.latitude := Weather.Args.latitude args;
     Weather.Query.longitude := Weather.Args.longitude args;
     Weather.Query.forecast_days := effective_days (Weather.Args.forecast_days args);
     Weather.Query.daily := effective_variables (Weather.Args.daily args) |}.

(** The form encoding of a query string, by the table of the characters
    it keeps: every other byte becomes [%XX], the space becomes [+]. *)
Definition kept_characters : string :=
  "ABCDEFGHIJKLMNOPQRSTUVWXYZabcdefghijklmnopqrstuvwxyz0123456789*-._".

Definition hex_of (n : N) : ascii :=
  match String.get (N.to_nat n) "0123456789ABCDEF" with
  | Some c => c
  | None => "0"%char
  end.

Definition form_byte (c : ascii) : string :=
  if existsb (Ascii.eqb c) (list_ascii_of_string kept_characters)
  then String c ""
  else if Ascii.eqb c " " then "+"
  else String "%" (String (hex_of (N_of_ascii c / 16))
                     (String (hex_of (N_of_ascii c mod 16)) "")).

Definition form_urlencoded (s : string) : string :=
  fold_right (fun c rest => form_byte c +:+ rest) "" (list_ascii_of_string s).

(** The URL the specification describes: the five parameters in the query
    string of the forecast endpoint. *)
Definition forecast_url (toString : number -> string) (q : Weather.Query.t) : string :=
  "https://api.open-meteo.com/v1/forecast?latitude="
  +:+ form_urlencoded (toString (Weather.Query.latitude q))
  +:+ "&longitude=" +:+ form_urlencoded (toString (Weather.Query.longitude q))
  +:+ "&forecast_days="
  +:+ form_urlencoded (toString (Weather.Query.forecast_days q))
  +:+ "&timezone=auto&daily="
  +:+ form_urlencoded (String.concat "," (Weather.Query.daily q)).

(** The same URL, given the text of its [daily] parameter as it stands
    in the query string. *)
Definition url_with_daily (toString : number -> string)
    (latitude longitude forecast_days : number) (daily : string) : string :=
  "https://api.open-meteo.com/v1/forecast?latitude="
  +:+ form_urlencoded (toString latitude)
  +:+ "&longitude=" +:+ form_urlencoded (toString longitude)
  +:+ "&forecast_days=" +:+ form_urlencoded (toString forecast_days)
  +:+ "&timezone=auto&daily=" +:+ daily.

(** ** Sample inputs *)

(** A printer that agrees with [Number.prototype.toString] on integers of
    moderate size, enough to run the tool on sample requests. *)
Definition toString_integral (n : number) : string :=
  match n with
  | NaN => "NaN"
  | Infinity false => "Infinity"
  | Infinity true => "-Infinity"
  | Finite q => pretty (Qnum q / Zpos (Qden q))
  end.

Definition answers (a : thrown + Http.Response) : Http.network := fun _ => a.

Definition ok_with (body : thrown + jsval) : thrown + Http.Response :=
  inr {| Http.status := 200; Http.statusText := "OK"; Http.json := body |}.

Definition equator : Weather.Args.t :=
  {| Weather.Args.latitude := num 0;
     Weather.Args.longitude := num 100;
     Weather.Args.forecast_days := Some (num 2);
     Weather.Args.daily := Some ["weathercode"] |}.

Definition equator_body : jsval :=
  JObj {[ "daily_units" := JObj {[ "weathercode" := JStr "wmo code" ]};
          "daily" := JObj {[ "weathercode" := JArr [JNum (num 3); JNum (num 61)] ]} ]}.

Definition latitude_200 : gmap string jsval :=
  {[ "latitude" := JNum (num 200); "longitude" := JNum (num 100) ]}.

Definition flood : ChildProcess.fate := ChildProcess.OverflowsBuffer "xxxx" "".
Definition sleeper : ChildProcess.fate := ChildProcess.TimesOut "" "".
Definition crash : ChildProcess.fate :=
  ChildProcess.Exits 1 "" "ZeroDivisionError: division by zero".
Definition silent_failure : ChildProcess.fate := ChildProcess.Exits 2 "partial" "".
Definition hello : ChildProcess.fate := ChildProcess.Exits 0 "hello" "".
Definition flood_then_done : ChildProcess.fate :=
  ChildProcess.EndsAtLimit ChildProcess.BufferLimit 0 "xxxx" "".
Definition flood_then_crash : ChildProcess.fate :=
  ChildProcess.EndsAtLimit ChildProcess.BufferLimit 1 "xxxx" "SystemExit".

(** The outcomes a tool call can be said to have failed with. *)
Definition reports_error (f : ChildProcess.fate) : bool :=
  could_not_start f || timed_out f || buffer_exceeded f.

(** ** Vocabulary of the further properties *)

(** The process launches and the [console.error] calls in a trace. *)
Definition spawns (t : list event)
  : list (string * list string * ChildProcess.SpawnSyncOptions) :=
  omap (fun ev => match ev with
                  | SpawnSync file args options => Some (file, args, options)
                  | _ => None
                  end) t.

Definition console_errors (t : list event) : list (string * thrown) :=
  omap (fun ev => match ev with
                  | ConsoleError label e => Some (label, e)
                  | _ => None
                  end) t.

(** How often a character occurs in a string. *)
Fixpoint occurrences (c : ascii) (s : string) : nat :=
  match s with
  | EmptyString => O
  | String c' rest =>
      ((if Ascii.eqb c c' then 1 else 0) + occurrences c rest)%nat
  end.

(** The arguments the weather schema produces satisfy its constraints. *)
Definition valid_args (args : Weather.Args.t) : Prop :=
  within (-90) 90 (Weather.Args.latitude args) = true /\
  within (-180) 180 (Weather.Args.longitude args) = true /\
  (exists days, Weather.Args.forecast_days args = Some days /\
                within 1 7 days = true /\ Number_isInteger days = true) /\
  (forall vars, Weather.Args.daily args = Some vars ->
                Forall (fun v => v ∈ known_variables) vars).

(** The same for the query a forecast echoes. *)
Definition valid_query (q : Weather.Query.t) : Prop :=
  within (-90) 90 (Weather.Query.latitude q) = true /\
  within (-180) 180 (Weather.Query.longitude q) = true /\
  within 1 7 (Weather.Query.forecast_days q) = true /\
  Number_isInteger (Weather.Query.forecast_days q) = true /\
  Weather.Query.daily q <> [] /\
  Forall (fun v => v ∈ known_variables) (Weather.Query.daily q).

(** A raw argument of the wrong type for a required number, for an
    optional number and for an optional array. *)
Definition not_a_number (v : jsval) : Prop := forall x, v <> JNum x.

Definition neither_number_nor_undefined (v : jsval) : Prop :=
  v <> JUndefined /\ forall x, v <> JNum x.

Definition neither_array_nor_undefined (v : jsval) : Prop :=
  v <> JUndefined /\ forall items, v <> JArr items.

(** The raw form of an optional argument: the property is set or not. *)
Definition raw_days (days : option number) : option jsval := JNum <$> days.

Definition raw_daily (daily : option (list string)) : option jsval :=
  (fun vars => JArr (JStr <$> vars)) <$> daily.

(** Further sample inputs. *)
Definition north_pole : gmap string jsval :=
  {[ "latitude" := JNum (num 90); "longitude" := JNum (num (-180));
     "forecast_days" := JNum (num 7);
     "daily" := JArr [JStr "weathercode"; JStr "precipitation_sum"] ]}.

Definition segfault : ChildProcess.fate := ChildProcess.KilledBy "SIGSEGV" "" "".
Definition no_python : ChildProcess.fate := ChildProcess.LaunchFails "ENOENT".
Definition bad_gateway : thrown + Http.Response :=
  inr {| Http.status := 502; Http.statusText := "Bad Gateway";
         Http.json := inl (ThrowError (new_Error "Unexpected token < in JSON")) |}.

Lemma execute_respond (h : ChildProcess.host) (script : string) :
  outcome (Analyze.execute h script) = inr (respond (fate_of h script)).
Proof.
  unfold Analyze.execute, spawnSync, fate_of.
  destruct (h _ _ _) as [[e|v]|errno|out err|out err|st out err|sig out err|[] st out err];
    try reflexivity.
  - cbn. destruct (decide (errno = "ETIMEDOUT")) as [->|Hne].
    + reflexivity.
    + destruct (decide (Some errno = Some "ETIMEDOUT")) as [Heq|_];
        [congruence | reflexivity].
  - cbn. destruct (decide (st = 0)) as [->|Hne].
    + reflexivity.
    + destruct (decide (Some st ≠ Some 0)) as [_|Hn]; [reflexivity|].
      exfalso. apply Hn. congruence.
Qed.

(** ** Sanity checks of the runtime model *)

Example lt_below_range : number_lt (num (-91)) (num (-90)) = true.
Proof. reflexivity. Qed.

Example lt_nan : number_lt NaN (num 0) = false /\ number_lt (num 0) NaN = false.
Proof. split; reflexivity. Qed.

Example isInteger_half : Number_isInteger (Finite (5 # 2)) = false.
Proof. reflexivity. Qed.

Example isInteger_unreduced : Number_isInteger (Finite (6 # 2)) = true.
Proof. reflexivity. Qed.

Example urlencode_reserved :
  Weather.urlencode "a b,c-1.5*_~%" = "a+b%2Cc-1.5*_%7E%25".
Proof. reflexivity. Qed.

Example equator_url :
  forecast_url toString_integral (echoed equator)
  = "https://api.open-meteo.com/v1/forecast?latitude=0&longitude=100&forecast_days=2&timezone=auto&daily=weathercode".
Proof. reflexivity. Qed.

Example not_found :
  Weather.execute toString_integral
    (answers (inr {| Http.status := 404; Http.statusText := "Not Found";
                     Http.json := inr JNull |})) equator
  = ([ Fetch (forecast_url toString_integral (echoed equator));
       ConsoleError "Weather tool error:"
         (ThrowError (new_Error "Weather API error: 404 Not Found")) ],
     inr (Weather.Failure "Weather API error: 404 Not Found")).
Proof. reflexivity. Qed.

Example spawn_raises :
  Analyze.execute (always (ChildProcess.SpawnThrows (ThrowValue (JStr "boom")))) "x = 1"
  = ([ SpawnSync "python" ["-c"; "import sys; exec(sys.stdin.read())"]
         {| ChildProcess.input := "x = 1"; ChildProcess.encoding := "utf-8";
            ChildProcess.timeout := 10000; ChildProcess.maxBuffer := 10485760 |};
       ConsoleError "Analysis tool error:" (ThrowValue (JStr "boom")) ],
     inr (Analyze.only_error "Analysis failed due to an unknown error")).
Proof. reflexivity. Qed.

Lemma reports_error_not_ran_to_end (f : ChildProcess.fate) :
  reports_error f = negb (ran_to_end f).
Proof. destruct f as [| | | | | |[]]; reflexivity. Qed.

(** ** The analysis tool: results *)

Lemma timed_out_text :
  contains "timed out" "Execution timed out (limit: 10 seconds)".
Proof. exists "Execution ", " (limit: 10 seconds)". reflexivity. Qed.

(** C1, as the specification states it, fails: a script that floods the
    read buffer was started and did not time out, yet the result carries
    no exit status. *)
Lemma flood_has_no_exit_status :
  could_not_start flood = false /\ timed_out flood = false /\
  exists r, outcome (Analyze.execute (always flood) "print('x' * 20000000)") = inr r /\
            Analyze.exitCode r = None.
Proof. repeat split. eexists. split; reflexivity. Qed.

(** C1, amended: when the spawn raises or reports an error of any kind
    (launch failure, timeout, read buffer exceeded) the result carries an
    error description and no output or exit status; in every other case,
    that is when the process exited or was killed, the exit status is
    populated. *)
Theorem error_only_or_exit_status (h : ChildProcess.host) (script : string) :
  exists r, outcome (Analyze.execute h script) = inr r /\
            if reports_error (fate_of h script)
            then error_only r
            else populated (Analyze.exitCode r).
Proof.
  rewrite execute_respond. eexists. split; [reflexivity|].
  unfold error_only, populated, absent.
  destruct (fate_of h script) as [[e|v]|errno|out err|out err|st out err|sig out err|[] st out err];
    cbn; eauto 6.
  - destruct (decide (errno = "ETIMEDOUT")); cbn; eauto 6.
  - destruct (decide (st = 0)); cbn; eauto.
Qed.

(** C2, as the specification states it, fails twice.  The text of the
    error description is another one; and a script that was started, did
    not time out and exited with status 1, but had overflowed the read
    buffer, gets an error description only. *)
Lemma crash_error_text :
  (exists r, outcome (Analyze.execute (always crash) "print(1 / 0)") = inr r /\
             Analyze.error r = Some "Python script exited with error" /\
             Analyze.error r <> Some "script exited with error") /\
  could_not_start flood_then_crash = false /\
  timed_out flood_then_crash = false /\
  exit_status flood_then_crash = Some 1 /\
  outcome (Analyze.execute (always flood_then_crash)
             "print('x' * 20000000); raise SystemExit(1)")
  = inr (Analyze.only_error "Execution failed: spawnSync python ENOBUFS").
Proof.
  split; [eexists; repeat split; discriminate|]. repeat split.
Qed.

Lemma exits_without_error (f : ChildProcess.fate) (st : Z) :
  exit_status f = Some st /\ reports_error f = false <->
  exists out err, f = ChildProcess.Exits st out err.
Proof.
  split.
  - intros [Hst Herr]. destruct f as [| | | | | |[]]; try discriminate.
    injection Hst as ->. eauto.
  - intros (out & err & ->). split; reflexivity.
Qed.

(** C2, amended: a script whose interpreter exits with a status other
    than zero, without the spawn reporting an error (no timeout, no
    exceeded read buffer), yields that status, the captured output, the
    captured error output or, exactly when that is empty, a generic
    message, and the error description "Python script exited with
    error". *)
Theorem nonzero_exit_result (h : ChildProcess.host) (script : string)
    (st : Z) (out err : string) :
  fate_of h script = ChildProcess.Exits st out err ->
  st <> 0 ->
  outcome (Analyze.execute h script) =
  inr {| Analyze.stdout := Some out;
         Analyze.stderr :=
           Some (if decide (err = "") then "Unknown error occurred" else err);
         Analyze.exitCode := Some st;
         Analyze.error := Some "Python script exited with error" |} /\
  (if decide (err = "") then "Unknown error occurred" else err) <> "".
Proof.
  intros Hfate Hst. rewrite execute_respond, Hfate. cbn.
  destruct (decide (st = 0)) as [?|_]; [contradiction|].
  destruct err; (split; [reflexivity | discriminate]).
Qed.

Lemma nonzero_exit_result_witness :
  outcome (Analyze.execute (always silent_failure) "import sys; sys.exit(2)") =
  inr {| Analyze.stdout := Some "partial";
         Analyze.stderr := Some "Unknown error occurred";
         Analyze.exitCode := Some 2;
         Analyze.error := Some "Python script exited with error" |} /\
  "Unknown error occurred" <> "".
Proof.
  apply (nonzero_exit_result (always silent_failure) "import sys; sys.exit(2)"
           2 "partial" "");
    [reflexivity | discriminate].
Defined.

(** C3, as the specification states it, fails on the text of the error
    description, which starts with a capital letter. *)
Lemma sleeper_error_text :
  exists r, outcome (Analyze.execute (always sleeper) "import time; time.sleep(11)") = inr r /\
            Analyze.error r = Some "Execution timed out (limit: 10 seconds)" /\
            Analyze.error r <> Some "execution timed out (limit: 10 seconds)".
Proof. eexists. repeat split. discriminate. Qed.

(** C3, amended: a script that runs into the time limit yields a result
    whose only field is the error description
    "Execution timed out (limit: 10 seconds)", which contains
    "timed out"; whatever the process wrote is dropped, and so is its
    exit status when it ended by itself at the limit. *)
Theorem timeout_result (h : ChildProcess.host) (script : string) :
  timed_out (fate_of h script) = true ->
  exists msg,
    outcome (Analyze.execute h script) =
    inr {| Analyze.stdout := None; Analyze.stderr := None;
           Analyze.exitCode := None; Analyze.error := Some msg |} /\
    msg = "Execution timed out (limit: 10 seconds)" /\
    contains "timed out" msg.
Proof.
  intros Hfate. rewrite execute_respond.
  destruct (fate_of h script) as [| | | | | |[]]; try discriminate;
    (eexists; split; [reflexivity|]; split; [reflexivity|]; apply timed_out_text).
Qed.

Lemma timeout_result_witness :
  exists msg,
    outcome (Analyze.execute (always sleeper) "import time; time.sleep(11)") =
    inr {| Analyze.stdout := None; Analyze.stderr := None;
           Analyze.exitCode := None; Analyze.error := Some msg |} /\
    msg = "Execution timed out (limit: 10 seconds)" /\
    contains "timed out" msg.
Proof.
  apply (timeout_result (always sleeper) "import time; time.sleep(11)").
  reflexivity.
Defined.

(** C4, as the specification states it, fails: a script that was
    started, did not time out and exited with status 0, but had overflowed
    the read buffer, gets an error description and neither exit status nor
    output. *)
Lemma flood_then_exit_zero :
  could_not_start flood_then_done = false /\
  timed_out flood_then_done = false /\
  exit_status flood_then_done = Some 0 /\
  outcome (Analyze.execute (always flood_then_done) "print('x' * 20000000)")
  = inr (Analyze.only_error "Execution failed: spawnSync python ENOBUFS").
Proof. repeat split. Qed.

(** C4, amended: a script whose interpreter exits with status zero,
    without the spawn reporting an error (no timeout, no exceeded read
    buffer), yields exit status 0, the captured output as written and the
    captured error output as it is, even when empty; there is no error
    description. *)
Theorem zero_exit_result (h : ChildProcess.host) (script out err : string) :
  fate_of h script = ChildProcess.Exits 0 out err ->
  outcome (Analyze.execute h script) =
  inr {| Analyze.stdout := Some out;
         Analyze.stderr := Some err;
         Analyze.exitCode := Some 0;
         Analyze.error := None |}.
Proof. intros Hfate. rewrite execute_respond, Hfate. reflexivity. Qed.

Lemma zero_exit_result_witness :
  outcome (Analyze.execute (always hello) "print('hello', end='')") =
  inr {| Analyze.stdout := Some "hello";
         Analyze.stderr := Some "";
         Analyze.exitCode := Some 0;
         Analyze.error := None |}.
Proof. apply (zero_exit_result (always hello) _ "hello" ""). reflexivity. Defined.



(** ** The weather tool: request and result *)

Lemma form_byte_spec (c : ascii) :
  (if Weather.urlencoded_plain c then String c ""
   else if Ascii.eqb c " " then "+"
   else Weather.percent_encode c) = form_byte c.
Proof. destruct c as [[] [] [] [] [] [] [] []]; vm_compute; reflexivity. Qed.

Lemma urlencode_spec (s : string) : Weather.urlencode s = form_urlencoded s.
Proof.
  induction s as [|c s IH]; [reflexivity|].
  change (Weather.urlencode (String c s))
    with ((if Weather.urlencoded_plain c then String c ""
           else if Ascii.eqb c " " then "+"
           else Weather.percent_encode c) +:+ Weather.urlencode s).
  rewrite form_byte_spec, IH. reflexivity.
Qed.

Lemma effective_daily_spec (daily : option (list string)) :
  Weather.effective_daily daily = effective_variables daily.
Proof. destruct daily as [[|v vars]|]; reflexivity. Qed.

Lemma request_url_unfold (toString : number -> string)
    (latitude longitude forecast_days : number) (dailyVars : list string) :
  Weather.request_url toString latitude longitude forecast_days dailyVars
  = "https://api.open-meteo.com/v1/forecast?latitude="
    +:+ Weather.urlencode (toString latitude)
    +:+ "&longitude=" +:+ Weather.urlencode (toString longitude)
    +:+ "&forecast_days=" +:+ Weather.urlencode (toString forecast_days)
    +:+ "&timezone=auto&daily="
    +:+ Weather.urlencode (String.concat "," dailyVars).
Proof. reflexivity. Qed.

Lemma request_url_forecast_url (toString : number -> string) (args : Weather.Args.t) :
  Weather.request_url toString
    (Weather.Args.latitude args) (Weather.Args.longitude args)
    (Weather.Args.forecast_days args ?? num 3)
    (Weather.effective_daily (Weather.Args.daily args))
  = forecast_url toString (echoed args).
Proof.
  rewrite request_url_unfold, !urlencode_spec, effective_daily_spec.
  unfold forecast_url, echoed. cbn.
  destruct (Weather.Args.forecast_days args); reflexivity.
Qed.

Lemma execute_reshape (toString : number -> string) (net : Http.network)
    (args : Weather.Args.t) :
  outcome (Weather.execute toString net args)
  = inr (reshape (echoed args) (net (forecast_url toString (echoed args)))).
Proof.
  unfold Weather.execute. rewrite request_url_forecast_url.
  unfold fetch, response_json, reshape.
  destruct (net _) as [e|response]; [destruct e; reflexivity|].
  cbn. destruct (Http.ok response); cbn; [|reflexivity].
  destruct (Http.json response) as [e|data]; [destruct e; reflexivity|].
  cbn. destruct data; try reflexivity.
  cbn. unfold taken_from, property.
  destruct (props !! "daily_units") as [[]|], (props !! "daily") as [[]|];
    reflexivity.
Qed.

Lemma execute_fetches (toString : number -> string) (net : Http.network)
    (args : Weather.Args.t) :
  fetches (trace (Weather.execute toString net args))
  = [forecast_url toString (echoed args)].
Proof.
  unfold Weather.execute. rewrite request_url_forecast_url.
  unfold fetch, response_json.
  destruct (net _) as [e|response]; [reflexivity|].
  cbn. destruct (Http.ok response); cbn; [|reflexivity].
  destruct (Http.json response) as [e|data]; [reflexivity|].
  cbn. destruct data; reflexivity.
Qed.

(** C5: whatever the host or the network does, [execute] of either tool
    returns a result object and raises nothing; the result carries an
    error description unless the interpreter exited with status zero,
    respectively unless the provider answered with a 2xx status and a body
    that parsed. *)
Theorem every_outcome_is_a_result :
  (forall (h : ChildProcess.host) (script : string),
     exists r, outcome (Analyze.execute h script) = inr r /\
       (populated (Analyze.error r) \/
        exists out err, fate_of h script = ChildProcess.Exits 0 out err)) /\
  (forall (toString : number -> string) (net : Http.network) (args : Weather.Args.t),
     exists r, outcome (Weather.execute toString net args) = inr r /\
       ((exists msg, r = Weather.Failure msg) \/
        exists response data,
          net (forecast_url toString (echoed args)) = inr response /\
          Http.ok response = true /\ Http.json response = inr data)).
Proof.
  split.
  - intros h script. rewrite execute_respond. eexists. split; [reflexivity|].
    unfold populated.
    destruct (fate_of h script) as [[e|v]|errno|out err|out err|st out err|sig out err|[] st out err];
      cbn; eauto.
    + destruct (decide (errno = "ETIMEDOUT")); cbn; eauto.
    + destruct (decide (st = 0)) as [->|]; cbn; eauto.
  - intros toString net args. rewrite execute_reshape. eexists.
    split; [reflexivity|]. unfold reshape.
    destruct (net _) as [e|response]; [eauto|].
    destruct (Http.ok response) eqn:Hok; [|eauto].
    destruct (Http.json response) as [e|data] eqn:Hjson; [eauto|].
    right. eauto.
Qed.

(** C6, as the specification states it, fails: a 2xx response whose body
    is the JSON text [null] parses, yet the tool returns an error
    description. *)
Lemma null_body_is_a_failure :
  Http.ok {| Http.status := 200; Http.statusText := "OK"; Http.json := inr JNull |} = true /\
  outcome (Weather.execute toString_integral (answers (ok_with (inr JNull))) equator)
  = inr (Weather.Failure "Cannot read properties of null (reading 'daily_units')").
Proof. split; reflexivity. Qed.

(** C6, amended: the tool issues exactly one request, to the forecast URL
    whose query string carries the latitude, the longitude, the day count,
    [timezone=auto] and the variable list.  On a 2xx response whose body
    parses to a value other than [null] it returns the source identifier,
    the echoed query and the body's [daily_units] and [daily], each [null]
    when absent; on a network failure, another status, a body that does
    not parse or the body [null] it returns an error description. *)
Theorem forecast_request_and_result (toString : number -> string)
    (net : Http.network) (args : Weather.Args.t) :
  fetches (trace (Weather.execute toString net args))
  = [forecast_url toString (echoed args)] /\
  (forall response data,
     net (forecast_url toString (echoed args)) = inr response ->
     Http.ok response = true ->
     Http.json response = inr data ->
     data <> JNull -> data <> JUndefined ->
     outcome (Weather.execute toString net args)
     = inr (Weather.Forecast "open-meteo" (echoed args)
              (taken_from data "daily_units") (taken_from data "daily"))) /\
  (forall e response,
     net (forecast_url toString (echoed args)) = inl e \/
     net (forecast_url toString (echoed args)) = inr response /\
     (Http.ok response = false \/ Http.json response = inl e \/
      Http.json response = inr JNull) ->
     exists msg,
       outcome (Weather.execute toString net args) = inr (Weather.Failure msg)).
Proof.
  split; [apply execute_fetches|]. split.
  - intros response data Hnet Hok Hjson Hnull Hundef.
    rewrite execute_reshape, Hnet. unfold reshape. rewrite Hok, Hjson.
    destruct data; congruence.
  - intros e response Hfail. rewrite execute_reshape. unfold reshape.
    destruct Hfail as [->|[-> Hfail]]; [eauto|].
    destruct (Http.ok response); [|eauto].
    destruct Hfail as [?|[->| ->]]; [discriminate|eauto|eauto].
Qed.

Lemma forecast_request_and_result_witness :
  outcome (Weather.execute toString_integral (answers (ok_with (inr equator_body))) equator)
  = inr (Weather.Forecast "open-meteo" (echoed equator)
           (taken_from equator_body "daily_units") (taken_from equator_body "daily")).
Proof.
  apply (proj1 (proj2 (forecast_request_and_result toString_integral
                         (answers (ok_with (inr equator_body))) equator))
           {| Http.status := 200; Http.statusText := "OK";
              Http.json := inr equator_body |} equator_body);
    [reflexivity | reflexivity | reflexivity | discriminate | discriminate].
Defined.

(** ** The weather tool: defaults *)


Lemma parameters_inv (props : gmap string jsval) (args : Weather.Args.t) :
  Weather.parameters (JObj props) = Some args ->
  Weather.latitude_schema (Zod.field props "latitude") = Some (Weather.Args.latitude args) /\
  Weather.longitude_schema (Zod.field props "longitude") = Some (Weather.Args.longitude args) /\
  (Some <$> Weather.forecast_days_schema (Zod.field props "forecast_days"))
  = Some (Weather.Args.forecast_days args) /\
  Weather.daily_schema (Zod.field props "daily") = Some (Weather.Args.daily args).
Proof.
  unfold Weather.parameters.
  destruct (Weather.latitude_schema _) as [lat|]; [|discriminate].
  destruct (Weather.longitude_schema _) as [lon|]; [|discriminate].
  destruct (Weather.forecast_days_schema _) as [days|]; [|discriminate].
  destruct (Weather.daily_schema _) as [daily|]; [|discriminate].
  cbn. intros [= <-]. auto.
Qed.

Lemma forecast_days_default :
  Weather.forecast_days_schema JUndefined = Some (num 3).
Proof. reflexivity. Qed.




(** ** The weather tool: validation *)

Lemma range_rejects (lo hi : Z) (x : number) :
  within lo hi x = false ->
  (Zod.number |> Zod.min lo |> Zod.max hi) (JNum x) = None.
Proof.
  unfold within, Zod.max, Zod.min, Zod.check, Zod.number, number_gt.
  destruct x as [|[]|q]; cbn; try reflexivity.
  destruct (Qle_bool (inject_Z lo) q); cbn; [|reflexivity].
  intros ->. reflexivity.
Qed.

Lemma days_rejects (x : number) :
  within 1 7 x = false \/ Number_isInteger x = false ->
  Weather.forecast_days_schema (JNum x) = None.
Proof.
  unfold Weather.forecast_days_schema, Zod.default, Zod.int.
  unfold within, Zod.max, Zod.min, Zod.check, Zod.number, number_gt.
  destruct x as [|[]|q]; cbn; try reflexivity.
  destruct (Qnum q mod Z.pos (Qden q) =? 0); cbn; [|reflexivity].
  intros [Hrange|?]; [|discriminate].
  destruct (Qle_bool (inject_Z 1) q); cbn; [|reflexivity].
  cbn in Hrange. rewrite Hrange. reflexivity.
Qed.

(** C8: a request whose latitude is outside [-90, 90], whose longitude
    is outside [-180, 180] or whose day count is outside [1, 7] or not an
    integer fails the schema; the call is rejected, [execute] does not run
    and the trace of the call is empty, so no request is sent. *)
Theorem invalid_request_rejected (toString : number -> string)
    (net : Http.network) (props : gmap string jsval) :
  out_of_range (-90) 90 (Zod.field props "latitude") \/
  out_of_range (-180) 180 (Zod.field props "longitude") \/
  out_of_range 1 7 (Zod.field props "forecast_days") \/
  fractional (Zod.field props "forecast_days") ->
  Weather.parameters (JObj props) = None /\
  Weather.call toString net (JObj props) = ([], inr Weather.Rejected) /\
  fetches (trace (Weather.call toString net (JObj props))) = [].
Proof.
  intros Hbad.
  assert (Weather.parameters (JObj props) = None) as Hreject.
  { unfold Weather.parameters.
    destruct Hbad as [(x & -> & Hx)|[(x & -> & Hx)|Hdays]].
    - unfold Weather.latitude_schema. rewrite (range_rejects _ _ _ Hx).
      reflexivity.
    - unfold Weather.longitude_schema. rewrite (range_rejects _ _ _ Hx).
      destruct (Weather.latitude_schema _); reflexivity.
    - assert (exists x, Zod.field props "forecast_days" = JNum x /\
                        (within 1 7 x = false \/ Number_isInteger x = false))
        as (x & -> & Hx).
      { destruct Hdays as [(x & ? & ?)|(x & ? & ?)]; eauto. }
      rewrite (days_rejects _ Hx).
      destruct (Weather.latitude_schema _); [|reflexivity].
      destruct (Weather.longitude_schema _); reflexivity. }
  unfold Weather.call. rewrite Hreject. auto.
Qed.

Lemma invalid_request_rejected_witness :
  Weather.parameters (JObj latitude_200) = None /\
  Weather.call toString_integral (answers (ok_with (inr equator_body)))
    (JObj latitude_200) = ([], inr Weather.Rejected) /\
  fetches (trace (Weather.call toString_integral
                    (answers (ok_with (inr equator_body))) (JObj latitude_200))) = [].
Proof.
  apply (invalid_request_rejected toString_integral
           (answers (ok_with (inr equator_body))) latitude_200).
  left. exists (num 200). split; reflexivity.
Defined.

Lemma field_insert (props : gmap string jsval) (key key' : string) (v : jsval) :
  Zod.field (<[key := v]> props) key' =
  if decide (key = key') then v else Zod.field props key'.
Proof. unfold Zod.field. rewrite lookup_insert. case_decide; reflexivity. Qed.

Lemma field_delete (props : gmap string jsval) (key key' : string) :
  Zod.field (delete key props) key' =
  if decide (key = key') then JUndefined else Zod.field props key'.
Proof. unfold Zod.field. rewrite lookup_delete. case_decide; reflexivity. Qed.

Lemma call_empty_daily (toString : number -> string) (net : Http.network)
    (props : gmap string jsval) :
  Weather.call toString net (JObj (<["daily" := JArr []]> props))
  = Weather.call toString net (JObj (delete "daily" props)).
Proof.
  unfold Weather.call, Weather.parameters.
  rewrite !field_insert, !field_delete.
  repeat (case_decide; [discriminate|]).
  repeat (case_decide; [|congruence]).
  destruct (Weather.latitude_schema _); [|reflexivity].
  destruct (Weather.longitude_schema _); [|reflexivity].
  destruct (Weather.forecast_days_schema _); reflexivity.
Qed.

Lemma known_names_joined (vars : list string) :
  Forall (fun v => v ∈ known_variables) vars ->
  form_urlencoded (String.concat "," vars) = String.concat "%2C" vars.
Proof.
  assert (forall name, name ∈ known_variables -> form_urlencoded name = name)
    as Hname.
  { intros name Hin. apply list_elem_of_In in Hin. cbn in Hin.
    repeat (destruct Hin as [<-|Hin]; [reflexivity|]). destruct Hin. }
  assert (forall a b, form_urlencoded (a +:+ b)
                      = form_urlencoded a +:+ form_urlencoded b) as Happ.
  { intros a b. induction a as [|x a IH]; [reflexivity|].
    change (form_urlencoded (String x a +:+ b))
      with (form_byte x +:+ form_urlencoded (a +:+ b)).
    change (form_urlencoded (String x a))
      with (form_byte x +:+ form_urlencoded a).
    rewrite IH. clear. induction (form_byte x) as [|y t IHt]; [reflexivity|].
    change (String y (t +:+ form_urlencoded a +:+ form_urlencoded b)
            = String y ((t +:+ form_urlencoded a) +:+ form_urlencoded b)).
    f_equal. exact IHt. }
  induction 1 as [|name vars Hin _ IH]; [reflexivity|].
  destruct vars as [|name' vars].
  - apply Hname, Hin.
  - change (String.concat "," (name :: name' :: vars))
      with (name +:+ "," +:+ String.concat "," (name' :: vars)).
    change (String.concat "%2C" (name :: name' :: vars))
      with (name +:+ "%2C" +:+ String.concat "%2C" (name' :: vars)).
    rewrite !Happ, IH, (Hname _ Hin). reflexivity.
Qed.

Lemma known_names_not_empty (name : string) (vars : list string) (sep : string) :
  name ∈ known_variables -> String.concat sep (name :: vars) <> "".
Proof.
  intros Hin. apply list_elem_of_In in Hin. cbn in Hin.
  repeat (destruct Hin as [<-|Hin]; [destruct vars; discriminate|]).
  destruct Hin.
Qed.

Lemma execute_fetches_daily (toString : number -> string) (net : Http.network)
    (args : Weather.Args.t) :
  Forall (fun v => v ∈ known_variables) (effective_variables (Weather.Args.daily args)) ->
  fetches (trace (Weather.execute toString net args))
  = [ url_with_daily toString
        (Weather.Args.latitude args) (Weather.Args.longitude args)
        (effective_days (Weather.Args.forecast_days args))
        (String.concat "%2C" (effective_variables (Weather.Args.daily args))) ].
Proof.
  intros Hknown. rewrite execute_fetches. unfold forecast_url, echoed.
  cbn [Weather.Query.latitude Weather.Query.longitude
       Weather.Query.forecast_days Weather.Query.daily].
  rewrite (known_names_joined _ Hknown). reflexivity.
Qed.

(** C10: an empty variable list is accepted by the schema and treated by
    [execute] as an omitted one: the call is the same, and the five
    default variables, temperature_2m_max, temperature_2m_min,
    precipitation_sum, windspeed_10m_max and weathercode, are sent and
    echoed.  For arguments that satisfy the schema, the [daily] parameter
    of the request is the names served, joined, and is never empty. *)
Theorem empty_daily_is_default :
  Weather.daily_schema (JArr []) = Some (Some []) /\
  (forall toString net (props : gmap string jsval),
     Weather.call toString net (JObj (<["daily" := JArr []]> props))
     = Weather.call toString net (JObj (delete "daily" props))) /\
  (forall toString net lat lon days,
     Weather.execute toString net
       {| Weather.Args.latitude := lat; Weather.Args.longitude := lon;
          Weather.Args.forecast_days := days; Weather.Args.daily := Some [] |}
     = Weather.execute toString net
       {| Weather.Args.latitude := lat; Weather.Args.longitude := lon;
          Weather.Args.forecast_days := days; Weather.Args.daily := None |}) /\
  (forall toString net lat lon days,
     fetches (trace (Weather.execute toString net
       {| Weather.Args.latitude := lat; Weather.Args.longitude := lon;
          Weather.Args.forecast_days := days; Weather.Args.daily := Some [] |}))
     = [ url_with_daily toString lat lon (effective_days days)
           "temperature_2m_max%2Ctemperature_2m_min%2Cprecipitation_sum%2Cwindspeed_10m_max%2Cweathercode" ]) /\
  (forall toString net lat lon days,
     outcome (Weather.execute toString net
       {| Weather.Args.latitude := lat; Weather.Args.longitude := lon;
          Weather.Args.forecast_days := days; Weather.Args.daily := Some [] |})
     = inr (reshape
              {| Weather.Query.latitude := lat; Weather.Query.longitude := lon;
                 Weather.Query.forecast_days := effective_days days;
                 Weather.Query.daily :=
                   [ "temperature_2m_max"; "temperature_2m_min";
                     "precipitation_sum"; "windspeed_10m_max"; "weathercode" ] |}
              (net (url_with_daily toString lat lon (effective_days days)
                      "temperature_2m_max%2Ctemperature_2m_min%2Cprecipitation_sum%2Cwindspeed_10m_max%2Cweathercode")))) /\
  (forall toString net args,
     valid_args args ->
     fetches (trace (Weather.execute toString net args))
     = [ url_with_daily toString
           (Weather.Args.latitude args) (Weather.Args.longitude args)
           (effective_days (Weather.Args.forecast_days args))
           (String.concat "%2C" (effective_variables (Weather.Args.daily args))) ] /\
     String.concat "%2C" (effective_variables (Weather.Args.daily args)) <> "").
Proof.
  assert (Forall (fun v => v ∈ known_variables) known_variables) as Hfive
    by (repeat constructor).
  split; [reflexivity|]. split; [apply call_empty_daily|].
  split; [reflexivity|].
  split.
  { intros toString net lat lon days.
    exact (execute_fetches_daily toString net
             {| Weather.Args.latitude := lat; Weather.Args.longitude := lon;
                Weather.Args.forecast_days := days;
                Weather.Args.daily := Some [] |} Hfive). }
  split.
  { intros. rewrite execute_reshape.
    pose proof (known_names_joined _ Hfive) as Hjoin.
    unfold forecast_url, echoed.
    cbn [Weather.Query.latitude Weather.Query.longitude
         Weather.Query.forecast_days Weather.Query.daily
         Weather.Args.latitude Weather.Args.longitude
         Weather.Args.forecast_days Weather.Args.daily effective_variables].
    rewrite Hjoin. reflexivity. }
  intros toString net args (_ & _ & _ & Hdaily).
  assert (Forall (fun v => v ∈ known_variables)
                 (effective_variables (Weather.Args.daily args))) as Hknown.
  { destruct (Weather.Args.daily args) as [[|v vars]|]; cbn;
      [exact Hfive | apply Hdaily; reflexivity | exact Hfive]. }
  split; [apply (execute_fetches_daily _ _ _ Hknown)|].
  destruct (effective_variables (Weather.Args.daily args)) as [|v vars] eqn:Hvars.
  - destruct (Weather.Args.daily args) as [[|v vars]|]; discriminate.
  - apply known_names_not_empty. inversion Hknown; assumption.
Qed.

Lemma empty_daily_is_default_witness :
  fetches (trace (Weather.execute toString_integral
                    (answers (ok_with (inr equator_body))) equator))
  = [ "https://api.open-meteo.com/v1/forecast?latitude=0&longitude=100&forecast_days=2&timezone=auto&daily=weathercode" ] /\
  "weathercode" <> "".
Proof.
  apply (proj2 (proj2 (proj2 (proj2 (proj2 empty_daily_is_default))))
           toString_integral (answers (ok_with (inr equator_body))) equator).
  unfold valid_args. cbn. repeat split.
  - exists (num 2). repeat split.
  - intros vars [= <-]. repeat constructor.
Defined.

(** ** Further properties of the analysis tool *)

Lemma execute_trace (h : ChildProcess.host) (script : string) :
  trace (Analyze.execute h script)
  = SpawnSync "python" ["-c"; "import sys; exec(sys.stdin.read())"]
      {| ChildProcess.input := script;
         ChildProcess.encoding := "utf-8";
         ChildProcess.timeout := 10000;
         ChildProcess.maxBuffer := 10 * 1024 * 1024 |}
    :: match fate_of h script with
       | ChildProcess.SpawnThrows e => [ConsoleError "Analysis tool error:" e]
       | _ => []
       end.
Proof.
  unfold Analyze.execute, spawnSync, fate_of.
  destruct (h _ _ _) as [[e|v]|errno|out err|out err|st out err|sig out err|[] st out err];
    try reflexivity.
  - cbn. destruct (decide (Some errno = Some "ETIMEDOUT")); reflexivity.
  - cbn. destruct (decide (Some st ≠ Some 0)); reflexivity.
Qed.

(** X1: an interpreter that a signal kills has no exit status; the tool
    reports exit status -1 with the captured output, the captured error
    output or the generic message, and the error description of a failed
    script. *)
Theorem killed_by_signal_result (h : ChildProcess.host) (script : string)
    (sig out err : string) :
  fate_of h script = ChildProcess.KilledBy sig out err ->
  outcome (Analyze.execute h script) =
  inr {| Analyze.stdout := Some out;
         Analyze.stderr :=
           Some (if decide (err = "") then "Unknown error occurred" else err);
         Analyze.exitCode := Some (-1);
         Analyze.error := Some "Python script exited with error" |}.
Proof.
  intros Hfate. rewrite execute_respond, Hfate. cbn. destruct err; reflexivity.
Qed.

Lemma killed_by_signal_result_witness :
  outcome (Analyze.execute (always segfault) "import ctypes; ctypes.string_at(0)") =
  inr {| Analyze.stdout := Some "";
         Analyze.stderr := Some "Unknown error occurred";
         Analyze.exitCode := Some (-1);
         Analyze.error := Some "Python script exited with error" |}.
Proof.
  apply (killed_by_signal_result (always segfault)
           "import ctypes; ctypes.string_at(0)" "SIGSEGV" "" "").
  reflexivity.
Defined.

(** X2: the fields of a result go together.  The output, error output
    and exit status are all present or all absent; there is no error
    description exactly when the exit status is 0; and a result with an
    error description never carries an empty error output. *)
Theorem result_fields_go_together (h : ChildProcess.host) (script : string) :
  exists r, outcome (Analyze.execute h script) = inr r /\
    (populated (Analyze.stdout r) <-> populated (Analyze.exitCode r)) /\
    (populated (Analyze.stderr r) <-> populated (Analyze.exitCode r)) /\
    (Analyze.error r = None <-> Analyze.exitCode r = Some 0) /\
    (populated (Analyze.error r) -> Analyze.stderr r <> Some "").
Proof.
  rewrite execute_respond. eexists. split; [reflexivity|].
  unfold populated.
  destruct (fate_of h script) as [[e|v]|errno|out err|out err|st out err|sig out err|[] st out err];
    cbn.
  3: destruct (decide (errno = "ETIMEDOUT")); cbn.
  7: destruct (decide (st = 0)) as [->|Hst]; cbn.
  all: repeat split; intros; try discriminate; try congruence; eauto;
    try (match goal with H : is_Some None |- _ => destruct H; discriminate end).
  all: destruct err; discriminate.
Qed.

(** X3: when the interpreter cannot be started, the error description is
    "Execution failed: " followed by the message of the spawn error, and
    nothing else is returned. *)
Theorem launch_failure_result (h : ChildProcess.host) (script errno : string) :
  fate_of h script = ChildProcess.LaunchFails errno ->
  errno <> "ETIMEDOUT" ->
  outcome (Analyze.execute h script) =
  inr (Analyze.only_error
         ("Execution failed: "
          +:+ Error.message (ChildProcess.errnoException "python" errno))).
Proof.
  intros Hfate Hne. rewrite execute_respond, Hfate. cbn.
  destruct (decide (errno = "ETIMEDOUT")); [contradiction | reflexivity].
Qed.

Lemma launch_failure_result_witness :
  outcome (Analyze.execute (always no_python) "print(1)") =
  inr (Analyze.only_error "Execution failed: spawnSync python ENOENT").
Proof.
  apply (launch_failure_result (always no_python) "print(1)" "ENOENT");
    [reflexivity | discriminate].
Defined.

(** X4: every call launches exactly one process, whatever becomes of it:
    the command and its arguments are fixed, the script travels on the
    standard input only, and the limits are 10000 ms and 10 MiB. *)
Theorem one_spawn_script_on_stdin (h : ChildProcess.host) (script : string) :
  spawns (trace (Analyze.execute h script))
  = [ ("python", ["-c"; "import sys; exec(sys.stdin.read())"],
       {| ChildProcess.input := script;
          ChildProcess.encoding := "utf-8";
          ChildProcess.timeout := 10000;
          ChildProcess.maxBuffer := 10485760 |}) ].
Proof.
  rewrite execute_trace. cbn.
  destruct (fate_of h script) as [e| | | | | |]; reflexivity.
Qed.

(** X5: the tool writes to the error console only when the spawn itself
    raises, and then once, with the label "Analysis tool error:" and the
    raised value; launch failures, timeouts and failing scripts are not
    logged. *)
Theorem logs_only_raised_spawn (h : ChildProcess.host) (script : string) :
  console_errors (trace (Analyze.execute h script))
  = match fate_of h script with
    | ChildProcess.SpawnThrows e => [("Analysis tool error:", e)]
    | _ => []
    end.
Proof.
  rewrite execute_trace. cbn.
  destruct (fate_of h script) as [e| | | | | |]; reflexivity.
Qed.

(** X6: when the spawn raises, the error description is the message of
    the raised error, or a fixed text when what was raised is not an
    error object. *)
Theorem raised_spawn_result (h : ChildProcess.host) (script : string) (e : thrown) :
  fate_of h script = ChildProcess.SpawnThrows e ->
  outcome (Analyze.execute h script) =
  inr (Analyze.only_error
         match e with
         | ThrowError err => Error.message err
         | ThrowValue _ => "Analysis failed due to an unknown error"
         end).
Proof.
  intros Hfate. rewrite execute_respond, Hfate. destruct e; reflexivity.
Qed.

Lemma raised_spawn_result_witness :
  outcome (Analyze.execute
             (always (ChildProcess.SpawnThrows
                        (ThrowError (new_Error "spawnSync python ENOMEM"))))
             "print(1)") =
  inr (Analyze.only_error "spawnSync python ENOMEM").
Proof.
  apply (raised_spawn_result
           (always (ChildProcess.SpawnThrows
                      (ThrowError (new_Error "spawnSync python ENOMEM"))))
           "print(1)" (ThrowError (new_Error "spawnSync python ENOMEM"))).
  reflexivity.
Defined.

(** X7: the schema of the analysis tool accepts exactly the objects whose
    [code] is a string, the empty one included, and yields that string. *)
Theorem analyze_parameters_accepts (raw : jsval) (code : string) :
  AnalyzeCall.parameters raw = Some code <->
  exists props, raw = JObj props /\ props !! "code" = Some (JStr code).
Proof.
  unfold AnalyzeCall.parameters, Zod.string, Zod.field. split.
  - destruct raw as [| | | | | |props]; try discriminate.
    destruct (props !! "code") as [[]|] eqn:Hcode; cbn; try discriminate.
    intros [= ->]. eauto.
  - intros (props & -> & ->). reflexivity.
Qed.

Lemma result_fields_go_together_witness :
  exists r, outcome (Analyze.execute (always crash) "print(1 / 0)") = inr r /\
    (populated (Analyze.stdout r) <-> populated (Analyze.exitCode r)) /\
    (populated (Analyze.stderr r) <-> populated (Analyze.exitCode r)) /\
    (Analyze.error r = None <-> Analyze.exitCode r = Some 0) /\
    (populated (Analyze.error r) -> Analyze.stderr r <> Some "").
Proof. apply (result_fields_go_together (always crash) "print(1 / 0)"). Defined.

Lemma analyze_parameters_accepts_witness :
  AnalyzeCall.parameters (JObj {[ "code" := JStr ""; "note" := JNull ]}) = Some "".
Proof.
  apply (proj2 (analyze_parameters_accepts
                  (JObj {[ "code" := JStr ""; "note" := JNull ]}) "")).
  eexists. split; reflexivity.
Defined.

(** ** Further properties of the weather tool: the schema *)

Lemma range_schema_spec (lo hi : Z) (v : jsval) (y : number) :
  (Zod.number |> Zod.min lo |> Zod.max hi) v = Some y <->
  v = JNum y /\ within lo hi y = true.
Proof.
  unfold within, Zod.max, Zod.min, Zod.check, Zod.number, number_gt. split.
  - destruct v as [| | |x| | |]; cbn; try discriminate.
    destruct x as [|[]|q]; cbn; try discriminate.
    destruct (Qle_bool (inject_Z lo) q) eqn:Hlo; cbn; [|discriminate].
    destruct (Qle_bool q (inject_Z hi)) eqn:Hhi; cbn; [|discriminate].
    intros [= <-]. cbn. unfold num. rewrite Hlo, Hhi. auto.
  - intros [-> Hin]. destruct y as [|[]|q]; cbn in *; try discriminate.
    apply andb_prop in Hin as [Hlo Hhi]. unfold num in *.
    rewrite Hlo. cbn. rewrite Hhi. reflexivity.
Qed.

Lemma days_schema_spec (v : jsval) (y : number) :
  Weather.forecast_days_schema v = Some y <->
  v = JUndefined /\ y = num 3 \/
  v = JNum y /\ within 1 7 y = true /\ Number_isInteger y = true.
Proof.
  split.
  - destruct v as [| | |x| | |]; try (cbn; discriminate).
    + rewrite forecast_days_default. intros [= <-]. auto.
    + unfold Weather.forecast_days_schema, Zod.default, Zod.int.
      unfold within, Zod.max, Zod.min, Zod.check, Zod.number, number_gt.
      destruct x as [|[]|q]; cbn; try discriminate.
      destruct (Qnum q mod Z.pos (Qden q) =? 0) eqn:Hint; cbn; [|discriminate].
      destruct (Qle_bool (inject_Z 1) q) eqn:Hlo; cbn; [|discriminate].
      destruct (Qle_bool q (inject_Z 7)) eqn:Hhi; cbn; [|discriminate].
      intros [= <-]. right. cbn. unfold num. rewrite Hlo, Hhi, Hint. auto.
  - intros [[-> ->]|(-> & Hin & Hint)]; [apply forecast_days_default|].
    unfold Weather.forecast_days_schema, Zod.default, Zod.int.
    unfold within, Zod.max, Zod.min, Zod.check, Zod.number, number_gt in *.
    destruct y as [|[]|q]; cbn in *; try discriminate.
    rewrite Hint. cbn.
    apply andb_prop in Hin as [Hlo Hhi]. unfold num in *.
    rewrite Hlo. cbn. rewrite Hhi. reflexivity.
Qed.

Lemma enum_spec (values : list string) (v : jsval) (s : string) :
  Zod.enum values v = Some s <-> v = JStr s /\ s ∈ values.
Proof.
  unfold Zod.enum. split.
  - destruct v; try discriminate. case_decide; [|discriminate].
    intros [= <-]. auto.
  - intros [-> Hin]. case_decide; [reflexivity | contradiction].
Qed.

Lemma array_enum_spec (values : list string) (items : list jsval) (vars : list string) :
  mapM (Zod.enum values) items = Some vars <->
  items = JStr <$> vars /\ Forall (fun s => s ∈ values) vars.
Proof.
  rewrite mapM_Some. split.
  - induction 1 as [|v s items vars Hv _ [-> IH]]; [split; [reflexivity | constructor]|].
    apply enum_spec in Hv as [-> Hin]. split; [reflexivity | constructor; assumption].
  - intros [-> Hall]. induction Hall as [|s vars Hin _ IH]; constructor; [|exact IH].
    apply enum_spec. auto.
Qed.

Lemma daily_schema_spec (v : jsval) (d : option (list string)) :
  Weather.daily_schema v = Some d <->
  v = JUndefined /\ d = None \/
  exists vars, v = JArr (JStr <$> vars) /\ d = Some vars /\
               Forall (fun s => s ∈ known_variables) vars.
Proof.
  unfold Weather.daily_schema, Zod.optional, Zod.array. split.
  - destruct v as [| | | | |items|]; try discriminate.
    + intros [= <-]. auto.
    + destruct (mapM _ items) as [vars|] eqn:Hitems; [|discriminate].
      cbn. intros [= <-]. right. exists vars.
      apply array_enum_spec in Hitems as [-> Hall]. auto.
  - intros [[-> ->]|(vars & -> & -> & Hall)]; [reflexivity|].
    assert (mapM (Zod.enum known_variables) (JStr <$> vars) = Some vars)
      as Hitems by (apply array_enum_spec; auto).
    unfold known_variables in Hitems. rewrite Hitems. reflexivity.
Qed.

Lemma field_present (props : gmap string jsval) (key : string) (v : jsval) :
  props !! key = Some v -> Zod.field props key = v.
Proof. unfold Zod.field. intros ->. reflexivity. Qed.

(** X9: arguments that pass the schema satisfy its constraints: the
    latitude is in [-90, 90], the longitude in [-180, 180], the day count
    is present, an integer and in [1, 7], and a variable list holds only
    the five known names. *)
Theorem parameters_sound (raw : jsval) (args : Weather.Args.t) :
  Weather.parameters raw = Some args -> valid_args args.
Proof.
  destruct raw as [| | | | | |props]; try discriminate.
  intros Hparse.
  apply parameters_inv in Hparse as (Hlat & Hlon & Hdays & Hdaily).
  apply range_schema_spec in Hlat as [_ Hlat].
  apply range_schema_spec in Hlon as [_ Hlon].
  destruct (Weather.forecast_days_schema _) as [days|] eqn:Hd; [|discriminate].
  injection Hdays as Hdays.
  repeat split; [exact Hlat | exact Hlon | |].
  - exists days. split; [congruence|].
    apply days_schema_spec in Hd as [[_ ->]|(_ & ? & ?)]; auto.
  - intros vars Hvars. rewrite Hvars in Hdaily.
    apply daily_schema_spec in Hdaily as [[_ ?]|(vars' & _ & [= <-] & Hall)];
      [discriminate | exact Hall].
Qed.

Lemma parameters_sound_witness :
  valid_args
    {| Weather.Args.latitude := num 90; Weather.Args.longitude := num (-180);
       Weather.Args.forecast_days := Some (num 7);
       Weather.Args.daily := Some ["weathercode"; "precipitation_sum"] |}.
Proof. apply (parameters_sound (JObj north_pole)). reflexivity. Defined.

(** X10: the schema accepts every request whose latitude and longitude
    are numbers within their inclusive bounds, whose day count is omitted
    or an integer within [1, 7] and whose variable list is omitted or an
    array of known names, in any order and number.  The parsed arguments
    are the ones given, with 3 for an omitted day count. *)
Theorem parameters_complete (props : gmap string jsval) (lat lon : number)
    (days : option number) (daily : option (list string)) :
  props !! "latitude" = Some (JNum lat) -> within (-90) 90 lat = true ->
  props !! "longitude" = Some (JNum lon) -> within (-180) 180 lon = true ->
  props !! "forecast_days" = raw_days days ->
  (forall d, days = Some d -> within 1 7 d = true /\ Number_isInteger d = true) ->
  props !! "daily" = raw_daily daily ->
  (forall vars, daily = Some vars ->
                Forall (fun v => v ∈ known_variables) vars) ->
  Weather.parameters (JObj props)
  = Some {| Weather.Args.latitude := lat; Weather.Args.longitude := lon;
            Weather.Args.forecast_days := Some (days ?? num 3);
            Weather.Args.daily := daily |}.
Proof.
  intros Hlat Hlat_in Hlon Hlon_in Hdays Hdays_ok Hdaily Hdaily_ok.
  unfold Weather.parameters.
  rewrite (field_present _ _ _ Hlat), (field_present _ _ _ Hlon).
  assert (Weather.latitude_schema (JNum lat) = Some lat) as ->
    by (apply range_schema_spec; auto).
  assert (Weather.longitude_schema (JNum lon) = Some lon) as ->
    by (apply range_schema_spec; auto).
  assert (Weather.forecast_days_schema (Zod.field props "forecast_days")
          = Some (days ?? num 3)) as ->.
  { apply days_schema_spec. unfold Zod.field. rewrite Hdays.
    destruct days as [d|]; cbn; [|auto].
    right. destruct (Hdays_ok d eq_refl). auto. }
  assert (Weather.daily_schema (Zod.field props "daily") = Some daily) as ->.
  { apply daily_schema_spec. unfold Zod.field. rewrite Hdaily.
    destruct daily as [vars|]; cbn; [|auto].
    right. exists vars. auto. }
  reflexivity.
Qed.

Lemma parameters_complete_witness :
  Weather.parameters (JObj north_pole)
  = Some {| Weather.Args.latitude := num 90; Weather.Args.longitude := num (-180);
            Weather.Args.forecast_days := Some (num 7);
            Weather.Args.daily := Some ["weathercode"; "precipitation_sum"] |}.
Proof.
  apply (parameters_complete north_pole (num 90) (num (-180)) (Some (num 7))
           (Some ["weathercode"; "precipitation_sum"])).
  - reflexivity.
  - reflexivity.
  - reflexivity.
  - reflexivity.
  - reflexivity.
  - intros d [= <-]. split; reflexivity.
  - reflexivity.
  - intros vars [= <-]. repeat constructor.
Defined.

(** X11: the schema does not coerce.  A request is rejected when its
    latitude or longitude is missing or not a number, when its day count
    is given but not a number, and when its variable list is given but not
    an array; a request that is not an object is rejected as well. *)
Theorem wrong_type_rejected :
  (forall props : gmap string jsval,
     not_a_number (Zod.field props "latitude") \/
     not_a_number (Zod.field props "longitude") \/
     neither_number_nor_undefined (Zod.field props "forecast_days") \/
     neither_array_nor_undefined (Zod.field props "daily") ->
     Weather.parameters (JObj props) = None) /\
  (forall raw, (forall props, raw <> JObj props) -> Weather.parameters raw = None).
Proof.
  split.
  - intros props Hbad.
    destruct (Weather.parameters (JObj props)) as [args|] eqn:Hparse; [|reflexivity].
    exfalso.
    apply parameters_inv in Hparse as (Hlat & Hlon & Hdays & Hdaily).
    apply range_schema_spec in Hlat as [Hlat _].
    apply range_schema_spec in Hlon as [Hlon _].
    destruct Hbad as [Hbad|[Hbad|[[Hdef Hbad]|[Hdef Hbad]]]].
    + exact (Hbad _ Hlat).
    + exact (Hbad _ Hlon).
    + destruct (Weather.forecast_days_schema _) as [days|] eqn:Hd; [|discriminate].
      apply days_schema_spec in Hd as [[? _]|[? _]]; [contradiction|].
      exact (Hbad _ H).
    + apply daily_schema_spec in Hdaily as [[? _]|(vars & ? & _)]; [contradiction|].
      exact (Hbad _ H).
  - intros raw Hraw. destruct raw as [| | | | | |props]; try reflexivity.
    destruct (Hraw props eq_refl).
Qed.

Lemma wrong_type_rejected_witness :
  Weather.parameters
    (JObj {[ "latitude" := JStr "35.6"; "longitude" := JNum (num 139) ]}) = None /\
  Weather.parameters (JArr [JNum (num 35); JNum (num 139)]) = None.
Proof.
  split.
  - apply (proj1 wrong_type_rejected
             {[ "latitude" := JStr "35.6"; "longitude" := JNum (num 139) ]}).
    left. intros x. discriminate.
  - apply (proj2 wrong_type_rejected (JArr [JNum (num 35); JNum (num 139)])).
    intros props. discriminate.
Defined.

(** X12: a variable list that holds anything but the five known names is
    rejected as a whole; the tool never drops the unknown entry and goes
    on with the rest. *)
Theorem unknown_variable_rejected (props : gmap string jsval)
    (items : list jsval) (v : jsval) :
  Zod.field props "daily" = JArr items ->
  v ∈ items ->
  (forall name, name ∈ known_variables -> v <> JStr name) ->
  Weather.parameters (JObj props) = None.
Proof.
  intros Hfield Hin Hunknown.
  destruct (Weather.parameters (JObj props)) as [args|] eqn:Hparse; [|reflexivity].
  exfalso.
  apply parameters_inv in Hparse as (_ & _ & _ & Hdaily).
  rewrite Hfield in Hdaily.
  apply daily_schema_spec in Hdaily as [[? _]|(vars & [= ->] & _ & Hall)];
    [discriminate|].
  apply list_elem_of_fmap in Hin as (name & -> & Hname).
  rewrite Forall_forall in Hall.
  exact (Hunknown name (Hall _ Hname) eq_refl).
Qed.

Lemma unknown_variable_rejected_witness :
  Weather.parameters
    (JObj {[ "latitude" := JNum (num 0); "longitude" := JNum (num 0);
             "daily" := JArr [JStr "weathercode"; JStr "sunrise"] ]}) = None.
Proof.
  apply (unknown_variable_rejected
           {[ "latitude" := JNum (num 0); "longitude" := JNum (num 0);
              "daily" := JArr [JStr "weathercode"; JStr "sunrise"] ]}
           [JStr "weathercode"; JStr "sunrise"] (JStr "sunrise")).
  - reflexivity.
  - apply list_elem_of_In. right. left. reflexivity.
  - intros name Hname Heq. injection Heq as <-.
    apply list_elem_of_In in Hname. cbn in Hname.
    repeat (destruct Hname as [Hname|Hname]; [discriminate|]). exact Hname.
Defined.

(** X13: the schema reads the four named properties and nothing else: a
    property of any other name, whatever its value, changes neither the
    verdict nor the parsed arguments. *)
Theorem unknown_keys_ignored (props : gmap string jsval) (key : string) (v : jsval) :
  key ∉ ["latitude"; "longitude"; "forecast_days"; "daily"] ->
  Weather.parameters (JObj (<[key := v]> props)) = Weather.parameters (JObj props).
Proof.
  intros Hkey. unfold Weather.parameters. rewrite !field_insert.
  repeat (case_decide; [subst key; exfalso; apply Hkey;
                        apply list_elem_of_In; cbn; tauto|]).
  reflexivity.
Qed.

Lemma unknown_keys_ignored_witness :
  Weather.parameters (JObj (<["units" := JStr "imperial"]> north_pole))
  = Weather.parameters (JObj north_pole).
Proof.
  apply (unknown_keys_ignored north_pole "units" (JStr "imperial")).
  intros Hin. apply list_elem_of_In in Hin. cbn in Hin.
  repeat (destruct Hin as [Hin|Hin]; [discriminate|]). exact Hin.
Defined.

(** ** Further properties of the weather tool: the call *)

Lemma weather_execute_cases (toString : number -> string) (net : Http.network)
    (args : Weather.Args.t) :
  Weather.execute toString net args
  = match net (forecast_url toString (echoed args)) with
    | inl e =>
        ([ Fetch (forecast_url toString (echoed args));
           ConsoleError "Weather tool error:" e ],
         inr (Weather.Failure (describe e)))
    | inr response =>
        if Http.ok response then
          match Http.json response with
          | inl e =>
              ([ Fetch (forecast_url toString (echoed args));
                 ConsoleError "Weather tool error:" e ],
               inr (Weather.Failure (describe e)))
          | inr data =>
              match Weather.get data "daily_units" with
              | (_, inl e) =>
                  ([ Fetch (forecast_url toString (echoed args));
                     ConsoleError "Weather tool error:" e ],
                   inr (Weather.Failure (describe e)))
              | (_, inr _) =>
                  ([ Fetch (forecast_url toString (echoed args)) ],
                   inr (Weather.Forecast "open-meteo" (echoed args)
                          (taken_from data "daily_units")
                          (taken_from data "daily")))
              end
          end
        else
          ([ Fetch (forecast_url toString (echoed args));
             ConsoleError "Weather tool error:"
               (ThrowError (new_Error
                  ("Weather API error: " +:+ pretty (Http.status response)
                   +:+ " " +:+ Http.statusText response))) ],
           inr (Weather.Failure
                  ("Weather API error: " +:+ pretty (Http.status response)
                   +:+ " " +:+ Http.statusText response)))
    end.
Proof.
  unfold Weather.execute. rewrite request_url_forecast_url.
  unfold fetch, response_json.
  destruct (net _) as [e|response]; [destruct e; reflexivity|].
  cbn. destruct (Http.ok response); cbn; [|reflexivity].
  destruct (Http.json response) as [e|data]; [destruct e; reflexivity|].
  cbn. destruct data; try reflexivity.
  cbn. unfold taken_from, property.
  destruct (props !! "daily_units") as [[]|], (props !! "daily") as [[]|];
    reflexivity.
Qed.

(** X14: on a status outside 200-299 the call is one request and one
    console error, and the error description is "Weather API error: "
    followed by the status and the status text, whatever the body of the
    response is and whether or not it would parse. *)
Theorem non_2xx_result (toString : number -> string) (net : Http.network)
    (args : Weather.Args.t) (response : Http.Response) :
  net (forecast_url toString (echoed args)) = inr response ->
  Http.ok response = false ->
  Weather.execute toString net args
  = ([ Fetch (forecast_url toString (echoed args));
       ConsoleError "Weather tool error:"
         (ThrowError (new_Error
            ("Weather API error: " +:+ pretty (Http.status response)
             +:+ " " +:+ Http.statusText response))) ],
     inr (Weather.Failure
            ("Weather API error: " +:+ pretty (Http.status response)
             +:+ " " +:+ Http.statusText response))).
Proof.
  intros Hnet Hok. rewrite weather_execute_cases, Hnet, Hok. reflexivity.
Qed.

Lemma non_2xx_result_witness :
  Weather.execute toString_integral (answers bad_gateway) equator
  = ([ Fetch (forecast_url toString_integral (echoed equator));
       ConsoleError "Weather tool error:"
         (ThrowError (new_Error "Weather API error: 502 Bad Gateway")) ],
     inr (Weather.Failure "Weather API error: 502 Bad Gateway")).
Proof.
  apply (non_2xx_result toString_integral (answers bad_gateway) equator
           {| Http.status := 502; Http.statusText := "Bad Gateway";
              Http.json := inl (ThrowError (new_Error "Unexpected token < in JSON")) |});
    reflexivity.
Defined.

(** X15: when the request fails or the body of a 2xx response does not
    parse, the error description is the message of the error that was
    raised, or a fixed text when what was raised is not an error object;
    the raised value is logged once. *)
Theorem transport_failure_result (toString : number -> string)
    (net : Http.network) (args : Weather.Args.t) (e : thrown) :
  net (forecast_url toString (echoed args)) = inl e \/
  (exists response,
     net (forecast_url toString (echoed args)) = inr response /\
     Http.ok response = true /\ Http.json response = inl e) ->
  Weather.execute toString net args
  = ([ Fetch (forecast_url toString (echoed args));
       ConsoleError "Weather tool error:" e ],
     inr (Weather.Failure
            match e with
            | ThrowError err => Error.message err
            | ThrowValue _ => "Checking weather failed due to an unknown error."
            end)).
Proof.
  intros [Hnet|(response & Hnet & Hok & Hjson)]; rewrite weather_execute_cases, Hnet.
  - reflexivity.
  - rewrite Hok, Hjson. reflexivity.
Qed.

Lemma transport_failure_result_witness :
  Weather.execute toString_integral (answers (inl (ThrowValue (JStr "offline")))) equator
  = ([ Fetch (forecast_url toString_integral (echoed equator));
       ConsoleError "Weather tool error:" (ThrowValue (JStr "offline")) ],
     inr (Weather.Failure "Checking weather failed due to an unknown error.")).
Proof.
  apply (transport_failure_result toString_integral
           (answers (inl (ThrowValue (JStr "offline")))) equator
           (ThrowValue (JStr "offline"))).
  left. reflexivity.
Defined.

(** X16: the tool logs exactly its failures: a call that returns a
    forecast writes nothing to the error console, and a call that returns
    an error description has logged, once, the raised value that the
    description was taken from. *)
Theorem logs_exactly_failures (toString : number -> string)
    (net : Http.network) (args : Weather.Args.t) :
  exists r, outcome (Weather.execute toString net args) = inr r /\
    match r with
    | Weather.Forecast _ _ _ _ =>
        console_errors (trace (Weather.execute toString net args)) = []
    | Weather.Failure msg =>
        exists e,
          console_errors (trace (Weather.execute toString net args))
          = [("Weather tool error:", e)] /\
          msg = match e with
                | ThrowError err => Error.message err
                | ThrowValue _ => "Checking weather failed due to an unknown error."
                end
    end.
Proof.
  rewrite weather_execute_cases.
  destruct (net _) as [e|response].
  { eexists. split; [reflexivity|]. cbn. eauto. }
  destruct (Http.ok response).
  2: { eexists. split; [reflexivity|]. cbn. eauto. }
  destruct (Http.json response) as [e|data].
  { eexists. split; [reflexivity|]. cbn. eauto. }
  destruct (Weather.get data "daily_units") as [t [e|v]];
    (eexists; split; [reflexivity|]; cbn; eauto).
Qed.

(** X17: a 2xx body that parses but has neither [daily_units] nor
    [daily] (an empty object, an array, a number, a string) is not an
    error: the tool returns a forecast whose units and daily values are
    both [null]. *)
Theorem body_without_fields (toString : number -> string) (net : Http.network)
    (args : Weather.Args.t) (response : Http.Response) (data : jsval) :
  net (forecast_url toString (echoed args)) = inr response ->
  Http.ok response = true ->
  Http.json response = inr data ->
  data <> JNull -> data <> JUndefined ->
  property data "daily_units" = None ->
  property data "daily" = None ->
  Weather.execute toString net args
  = ([ Fetch (forecast_url toString (echoed args)) ],
     inr (Weather.Forecast "open-meteo" (echoed args) JNull JNull)).
Proof.
  intros Hnet Hok Hjson Hnull Hundef Hunits Hdaily.
  rewrite weather_execute_cases, Hnet, Hok, Hjson.
  unfold taken_from. rewrite Hunits, Hdaily.
  destruct data; try reflexivity; congruence.
Qed.

Lemma body_without_fields_witness :
  Weather.execute toString_integral (answers (ok_with (inr (JArr [])))) equator
  = ([ Fetch (forecast_url toString_integral (echoed equator)) ],
     inr (Weather.Forecast "open-meteo" (echoed equator) JNull JNull)).
Proof.
  apply (body_without_fields toString_integral (answers (ok_with (inr (JArr []))))
           equator
           {| Http.status := 200; Http.statusText := "OK"; Http.json := inr (JArr []) |}
           (JArr []));
    first [reflexivity | discriminate].
Defined.

(** ** Further properties of the weather tool: the URL *)

(** X18: for a list of variable names that the schema lets through, the
    request carries the caller's names, in the order given, as its
    [daily] parameter, separated by the percent-encoded comma [%2C]. *)
Theorem daily_parameter_encoding (toString : number -> string)
    (net : Http.network) (lat lon : number) (days : option number)
    (name : string) (names : list string) :
  Forall (fun v => v ∈ known_variables) (name :: names) ->
  fetches (trace (Weather.execute toString net
    {| Weather.Args.latitude := lat; Weather.Args.longitude := lon;
       Weather.Args.forecast_days := days;
       Weather.Args.daily := Some (name :: names) |}))
  = [ url_with_daily toString lat lon (effective_days days)
        (String.concat "%2C" (name :: names)) ].
Proof.
  intros Hknown.
  exact (execute_fetches_daily toString net
           {| Weather.Args.latitude := lat; Weather.Args.longitude := lon;
              Weather.Args.forecast_days := days;
              Weather.Args.daily := Some (name :: names) |} Hknown).
Qed.

Lemma daily_parameter_encoding_witness :
  fetches (trace (Weather.execute toString_integral
    (answers (ok_with (inr equator_body)))
    {| Weather.Args.latitude := num 0; Weather.Args.longitude := num 100;
       Weather.Args.forecast_days := None;
       Weather.Args.daily := Some ["weathercode"; "precipitation_sum"] |}))
  = [ "https://api.open-meteo.com/v1/forecast?latitude=0&longitude=100&forecast_days=3&timezone=auto&daily=weathercode%2Cprecipitation_sum" ].
Proof.
  apply (daily_parameter_encoding toString_integral
           (answers (ok_with (inr equator_body))) (num 0) (num 100) None
           "weathercode" ["precipitation_sum"]).
  repeat constructor.
Defined.

Lemma occurrences_app (c : ascii) (a b : string) :
  occurrences c (a +:+ b) = (occurrences c a + occurrences c b)%nat.
Proof.
  induction a as [|x a IH]; [reflexivity|].
  change (String x a +:+ b) with (String x (a +:+ b)).
  cbn [occurrences]. rewrite IH. apply Nat.add_assoc.
Qed.

Lemma occurrences_encoded_char (x : ascii) :
  Forall (fun c => occurrences c
                     (if Weather.urlencoded_plain x then String x ""
                      else if Ascii.eqb x " " then "+"
                      else Weather.percent_encode x) = O)
         ["&"; "="; "?"; "#"; " "]%char.
Proof.
  destruct x as [[] [] [] [] [] [] [] []]; vm_compute; repeat constructor.
Qed.

Lemma occurrences_urlencode (c : ascii) (s : string) :
  c ∈ ["&"; "="; "?"; "#"; " "]%char ->
  occurrences c (Weather.urlencode s) = O.
Proof.
  intros Hc. induction s as [|x s IH]; [reflexivity|].
  cbn [Weather.urlencode]. rewrite occurrences_app, IH.
  pose proof (occurrences_encoded_char x) as Hx.
  rewrite Forall_forall in Hx. rewrite (Hx c Hc). reflexivity.
Qed.

(** X19: no argument can add to or break the query string: whatever the
    printed numbers and the variable names are, the requested URL has one
    [?], five [=], four [&] and neither [#] nor a space. *)
Theorem url_has_five_parameters (toString : number -> string)
    (latitude longitude forecast_days : number) (dailyVars : list string) :
  occurrences "?" (Weather.request_url toString latitude longitude
                     forecast_days dailyVars) = 1%nat /\
  occurrences "=" (Weather.request_url toString latitude longitude
                     forecast_days dailyVars) = 5%nat /\
  occurrences "&" (Weather.request_url toString latitude longitude
                     forecast_days dailyVars) = 4%nat /\
  occurrences "#" (Weather.request_url toString latitude longitude
                     forecast_days dailyVars) = 0%nat /\
  occurrences " " (Weather.request_url toString latitude longitude
                     forecast_days dailyVars) = 0%nat.
Proof.
  rewrite request_url_unfold.
  repeat split; rewrite !occurrences_app, !occurrences_urlencode;
    first [reflexivity | apply list_elem_of_In; cbn; tauto].
Qed.

(** ** Further properties of the weather tool: schema and call together *)

(** X20: a forecast returned for arguments that satisfy the schema echoes
    a query that satisfies it too: coordinates in range, an integer day
    count in [1, 7] and a list of known variable names that is not empty;
    its source is "open-meteo". *)
Theorem forecast_echo_valid (toString : number -> string) (net : Http.network)
    (args : Weather.Args.t) (source : string) (q : Weather.Query.t)
    (units daily : jsval) :
  valid_args args ->
  outcome (Weather.execute toString net args)
  = inr (Weather.Forecast source q units daily) ->
  source = "open-meteo" /\ q = echoed args /\ valid_query q.
Proof.
  intros (Hlat & Hlon & (days & Hdays & Hin & Hint) & Hdaily) Hout.
  assert (source = "open-meteo" /\ q = echoed args) as [-> ->].
  { rewrite execute_reshape in Hout. unfold reshape in Hout.
    destruct (net _) as [e|response]; [discriminate|].
    destruct (Http.ok response); [|discriminate].
    destruct (Http.json response) as [e|data]; [discriminate|].
    destruct data; try discriminate; injection Hout as <- <- _ _; auto. }
  split; [reflexivity|]. split; [reflexivity|].
  unfold valid_query, echoed. cbn. rewrite Hdays. cbn.
  repeat split; try assumption.
  - destruct (Weather.Args.daily args) as [[|v vars]|]; discriminate.
  - destruct (Weather.Args.daily args) as [[|v vars]|] eqn:Hvars; cbn.
    + repeat constructor.
    + apply Hdaily. reflexivity.
    + repeat constructor.
Qed.

Lemma forecast_echo_valid_witness :
  "open-meteo" = "open-meteo" /\ echoed equator = echoed equator /\
  valid_query (echoed equator).
Proof.
  apply (forecast_echo_valid toString_integral
           (answers (ok_with (inr equator_body))) equator "open-meteo"
           (echoed equator)
           (taken_from equator_body "daily_units")
           (taken_from equator_body "daily")).
  - unfold valid_args. cbn. repeat split.
    + exists (num 2). repeat split.
    + intros vars [= <-]. repeat constructor.
  - reflexivity.
Defined.
